(** * mcp-client-gen: the schema-to-client code generation engine

    A shallow embedding of [src/codegen/utils.ts], [schema-converter.ts],
    [interface-generator.ts], [class-generator.ts] and [file-builder.ts],
    with the properties of the generated module proved over it.

    JavaScript strings are modelled as [string] (the ASCII range: case
    mapping and the whitespace class [\s] are the ASCII ones), JavaScript
    arrays as lists, a plain object used as a map as the list of its entries
    in [Object.entries] order, an optional field as [option]. The source
    file under construction is only ever appended to, and the clock is
    read for the timestamps: both are threaded through the generator monad
    [Gen]. The schema converter is given twice: on schema trees
    ([jsonSchemaToTypeScript]) and on raw parsed JSON, where it can throw
    ([Dynamic.jsonSchemaToTypeScript]); [dynamic_refines] relates the two. *)

From Stdlib Require Import String Ascii List Bool Arith ZArith Lia DecimalString.
Import ListNotations.
Open Scope list_scope.
Open Scope string_scope.

(** Within [string_scope], [++] appends strings; [+++] appends lists. *)
Infix "+++" := (@app _) (at level 60, right associativity).

(** ** JavaScript helpers *)

Module Js.

(** [arr.join(sep)] on an array of strings. *)
Definition join (sep : string) (arr : list string) : string :=
  String.concat sep arr.

(** [new Set(arr).has(key)] for strings. *)
Definition has (set : list string) (key : string) : bool :=
  existsb (String.eqb key) set.

(** Truthiness of an optional string: absent and the empty string are falsy. *)
Definition truthy (s : option string) : bool :=
  match s with
  | Some (String _ _) => true
  | _ => false
  end.

(** [x || d] on an optional array: arrays are always truthy. *)
Definition orElse {A : Type} (x : option A) (d : A) : A :=
  match x with
  | Some a => a
  | None => d
  end.

Definition inRange (lo hi : nat) (c : ascii) : bool :=
  Nat.leb lo (nat_of_ascii c) && Nat.leb (nat_of_ascii c) hi.

Definition isLower (c : ascii) : bool := inRange 97 122 c.
Definition isUpper (c : ascii) : bool := inRange 65 90 c.
Definition isDigit (c : ascii) : bool := inRange 48 57 c.
Definition isUnderscore (c : ascii) : bool := Ascii.eqb c "_"%char.

(** [c.toUpperCase()] and [c.toLowerCase()] on one ASCII character. *)
Definition toUpperCase (c : ascii) : ascii :=
  if isLower c then ascii_of_nat (nat_of_ascii c - 32) else c.

Definition toLowerCase (c : ascii) : ascii :=
  if isUpper c then ascii_of_nat (nat_of_ascii c + 32) else c.

(** The class [\s] on ASCII: tab, line feed, vertical tab, form feed,
    carriage return and space. *)
Definition isWhitespace (c : ascii) : bool :=
  inRange 9 13 c || Ascii.eqb c " "%char.

End Js.

(** ** JavaScript values

    The values a JSON document is made of, and [undefined]. Numbers are the
    integers; objects are plain data objects, given by their entries in
    [Object.entries] order. *)

Module Value.

#[warnings="-register-all"]
Inductive JsValue : Type :=
| JsUndefined
| JsNull
| JsBoolean (b : bool)
| JsNumber (z : Z)
| JsString (s : string)
| JsArray (elements : list JsValue)
| JsObject (entries : list (string * JsValue)).

(** [!!v] *)
Definition truthy (v : JsValue) : bool :=
  match v with
  | JsUndefined | JsNull => false
  | JsBoolean b => b
  | JsNumber z => negb (Z.eqb z 0)
  | JsString EmptyString => false
  | JsString (String _ _) => true
  | JsArray _ | JsObject _ => true
  end.

(** [typeof v === "object"] *)
Definition typeofObject (v : JsValue) : bool :=
  match v with
  | JsNull | JsArray _ | JsObject _ => true
  | _ => false
  end.

(** [Array.isArray(v)] *)
Definition isArray (v : JsValue) : bool :=
  match v with
  | JsArray _ => true
  | _ => false
  end.

Fixpoint lookup (key : string) (entries : list (string * JsValue))
    : option JsValue :=
  match entries with
  | [] => None
  | (k, v) :: rest => if k =? key then Some v else lookup key rest
  end.

(** [v.key] on a value that is not [undefined] or [null]. *)
Definition getProperty (v : JsValue) (key : string) : JsValue :=
  match v with
  | JsObject entries => Js.orElse (lookup key entries) JsUndefined
  | _ => JsUndefined
  end.

(** [key in v] for a name that is no array index, on an object or array. *)
Definition hasProperty (key : string) (v : JsValue) : bool :=
  match v with
  | JsObject entries =>
    match lookup key entries with
    | Some _ => true
    | None => false
    end
  | _ => false
  end.

(** [v[0]] on a value that is not [undefined] or [null]. *)
Definition first (v : JsValue) : JsValue :=
  match v with
  | JsArray (x :: _) => x
  | JsString (String c _) => JsString (String c EmptyString)
  | JsObject entries => Js.orElse (lookup "0" entries) JsUndefined
  | _ => JsUndefined
  end.

(** [v?.[0]] *)
Definition optionalFirst (v : JsValue) : JsValue :=
  match v with
  | JsUndefined | JsNull => JsUndefined
  | _ => first v
  end.

(** [String(v)] *)
Fixpoint toString (v : JsValue) : string :=
  match v with
  | JsUndefined => "undefined"
  | JsNull => "null"
  | JsBoolean true => "true"
  | JsBoolean false => "false"
  | JsNumber z => NilZero.string_of_int (Z.to_int z)
  | JsString s => s
  | JsArray elements =>
    Js.join ","
      (map (fun e => match e with
                     | JsUndefined | JsNull => ""
                     | _ => toString e
                     end)
           elements)
  | JsObject _ => "[object Object]"
  end.

End Value.

(** ** schema-converter.ts *)

(** The [type] field: one name, or an array of names. *)
Inductive SchemaType : Type :=
| TypeName (t : string)
| TypeList (ts : list string).

(** The [additionalProperties] field: absent, a boolean or a schema. *)
Inductive Additional (S : Type) : Type :=
| AdditionalAbsent
| AdditionalBool (b : bool)
| AdditionalSchema (s : S).
Arguments AdditionalAbsent {S}.
Arguments AdditionalBool {S} b.
Arguments AdditionalSchema {S} s.

(** The fields of a schema object that the generator reads. [properties] is
    the list of the entries of the [properties] object in [Object.entries]
    order. *)
Record SchemaFields (S : Type) : Type := mkSchemaFields {
  type : option SchemaType;
  enum : option (list string);
  description : option string;
  items : option S;
  properties : option (list (string * S));
  required : option (list string);
  additionalProperties : Additional S;
  anyOf : option (list S);
  oneOf : option (list S);
  allOf : option (list S)
}.
Arguments mkSchemaFields {S}.
Arguments type {S}.
Arguments enum {S}.
Arguments description {S}.
Arguments items {S}.
Arguments properties {S}.
Arguments required {S}.
Arguments additionalProperties {S}.
Arguments anyOf {S}.
Arguments oneOf {S}.
Arguments allOf {S}.

(** A schema node: a finite tree of schema objects. *)
#[warnings="-register-all"]
Inductive Schema : Type :=
| Node (fields : SchemaFields Schema).

(** The object literal [{}] and its one-field variants. *)
Definition emptyFields : SchemaFields Schema :=
  mkSchemaFields None None None None None None AdditionalAbsent None None None.

Definition withType (t : SchemaType) (f : SchemaFields Schema) : SchemaFields Schema :=
  mkSchemaFields (Some t) (enum f) (description f) (items f) (properties f)
    (required f) (additionalProperties f) (anyOf f) (oneOf f) (allOf f).

Definition withEnum (e : option (list string)) (f : SchemaFields Schema) : SchemaFields Schema :=
  mkSchemaFields (type f) e (description f) (items f) (properties f)
    (required f) (additionalProperties f) (anyOf f) (oneOf f) (allOf f).

Definition withProperties (p : option (list (string * Schema)))
    (f : SchemaFields Schema) : SchemaFields Schema :=
  mkSchemaFields (type f) (enum f) (description f) (items f) p
    (required f) (additionalProperties f) (anyOf f) (oneOf f) (allOf f).

Definition withRequired (r : option (list string)) (f : SchemaFields Schema) : SchemaFields Schema :=
  mkSchemaFields (type f) (enum f) (description f) (items f) (properties f)
    r (additionalProperties f) (anyOf f) (oneOf f) (allOf f).

Definition withAdditional (a : Additional Schema) (f : SchemaFields Schema) : SchemaFields Schema :=
  mkSchemaFields (type f) (enum f) (description f) (items f) (properties f)
    (required f) a (anyOf f) (oneOf f) (allOf f).

Definition withItems (i : option Schema) (f : SchemaFields Schema) : SchemaFields Schema :=
  mkSchemaFields (type f) (enum f) (description f) i (properties f)
    (required f) (additionalProperties f) (anyOf f) (oneOf f) (allOf f).

Definition withAnyOf (l : option (list Schema)) (f : SchemaFields Schema) : SchemaFields Schema :=
  mkSchemaFields (type f) (enum f) (description f) (items f) (properties f)
    (required f) (additionalProperties f) l (oneOf f) (allOf f).

(** [/^[a-zA-Z_][a-zA-Z0-9_]*$/.test(key)] *)
Definition isIdentStart (c : ascii) : bool :=
  Js.isLower c || Js.isUpper c || Js.isUnderscore c.

Definition isIdentPart (c : ascii) : bool :=
  isIdentStart c || Js.isDigit c.

Fixpoint allIdentPart (s : string) : bool :=
  match s with
  | EmptyString => true
  | String c rest => isIdentPart c && allIdentPart rest
  end.

Definition isBareIdentifier (key : string) : bool :=
  match key with
  | EmptyString => false
  | String c rest => isIdentStart c && allIdentPart rest
  end.

(** The double-quote character, and the template [`"${v}"`]. *)
Definition dq : string := String (ascii_of_nat 34) EmptyString.

Definition quote (v : string) : string := dq ++ v ++ dq.

(** [jsonSchemaToTypeScript({ type: t })] for a type name [t]: the result of
    the converter on the fresh one-field object that the multi-valued [type]
    case builds (see [jsonSchemaToTypeScript_typeOnly]). *)
Definition typeNameToTypeScript (t : string) : string :=
  if t =? "string" then "string"
  else if (t =? "number") || (t =? "integer") then "number"
  else if t =? "boolean" then "boolean"
  else if t =? "null" then "null"
  else if t =? "array" then "any[]"
  else if t =? "object" then "Record<string, any>"
  else "any".

(** One entry of [props]: [`  ${quotedKey}${optional}: ${type};`], where
    [isRequired] is [required.has(key)]. *)
Definition propertyLine (isRequired : bool) (key type : string) : string :=
  let optional := if isRequired then "" else "?" in
  let quotedKey := if isBareIdentifier key then key else quote key in
  "  " ++ quotedKey ++ optional ++ ": " ++ type ++ ";".

(** The index signature entry: [`  [key: string]: ${additionalType};`] *)
Definition indexSignatureLine (additionalType : string) : string :=
  "  [key: string]: " ++ additionalType ++ ";".

(** The line feed character. *)
Definition newline : string := String (ascii_of_nat 10) EmptyString.

(** [props.length > 0 ? `{\n${props.join("\n")}\n}` : "{}"] *)
Definition objectLiteral (props : list string) : string :=
  match props with
  | [] => "{}"
  | _ :: _ => "{" ++ newline ++ Js.join newline props ++ newline ++ "}"
  end.

(** [jsonSchemaToTypeScript(schema)] on a schema object, by recursion on the
    schema tree; [convert] is the call on a field that may be absent. *)
Fixpoint convertNode (schema : Schema) : string :=
  let convert (s : option Schema) : string :=
    match s with
    | None => "any"
    | Some n => convertNode n
    end in
  match schema with
  | Node f =>
    let default :=
      match type f with
      | Some (TypeList ts) =>
        (* Handle union types *)
        Js.join " | " (map typeNameToTypeScript ts)
      | _ =>
        match anyOf f, oneOf f with
        | Some schemas, _ | None, Some schemas =>
          (* Handle anyOf/oneOf *)
          Js.join " | " (map convertNode schemas)
        | None, None =>
          match allOf f with
          | Some schemas => Js.join " & " (map convertNode schemas)
          | None => "any"
          end
        end
      end in
    match type f with
    | Some (TypeName t) =>
      if t =? "string" then
        match enum f with
        | Some values => Js.join " | " (map quote values)
        | None => "string"
        end
      else if (t =? "number") || (t =? "integer") then "number"
      else if t =? "boolean" then "boolean"
      else if t =? "null" then "null"
      else if t =? "array" then convert (items f) ++ "[]"
      else if t =? "object" then
        match properties f with
        | None => "Record<string, any>"
        | Some entries =>
          let required := Js.orElse (required f) [] in
          let props :=
            map (fun entry : string * Schema =>
                   let (key, propSchema) := entry in
                   propertyLine (Js.has required key) key (convertNode propSchema))
                entries in
          let props :=
            match additionalProperties f with
            | AdditionalAbsent | AdditionalBool false => props
            | AdditionalBool true => props +++ [indexSignatureLine "any"]
            | AdditionalSchema s => props +++ [indexSignatureLine (convertNode s)]
            end in
          objectLiteral props
        end
      else default
    | _ => default
    end
  end.

(** Convert JSON Schema to TypeScript type string; [None] is an absent
    ([undefined] or [null]) schema. *)
Definition jsonSchemaToTypeScript (schema : option Schema) : string :=
  match schema with
  | None => "any"
  | Some n => convertNode n
  end.

(** *** The converter on raw values

    The parameter of [jsonSchemaToTypeScript] has type [any]: the schema
    arrives as parsed JSON. [Dynamic.jsonSchemaToTypeScript] is the function
    on an arbitrary value, where a call of [map] on a value that is no
    array, or [new Set] of a value that cannot be iterated, throws a
    [TypeError]. The recursion is bounded by [fuel], the depth of calls
    allowed; [None] is an exhausted bound. *)

Module Dynamic.

Import Value.

Inductive Completion (A : Type) : Type :=
| Normal (a : A)
| TypeError (message : string).
Arguments Normal {A} a.
Arguments TypeError {A} message.

Definition Eval (A : Type) : Type := option (Completion A).

Definition ret {A : Type} (a : A) : Eval A := Some (Normal a).

Definition throw {A : Type} (message : string) : Eval A :=
  Some (TypeError message).

Definition bind {A B : Type} (m : Eval A) (k : A -> Eval B) : Eval B :=
  match m with
  | Some (Normal a) => k a
  | Some (TypeError message) => Some (TypeError message)
  | None => None
  end.

Declare Scope eval_scope.
Delimit Scope eval_scope with eval.
Notation "x <- m ;; k" := (bind m (fun x => k))
  (at level 61, m at next level, right associativity) : eval_scope.
Local Open Scope eval_scope.

Fixpoint mapM {A B : Type} (f : A -> Eval B) (l : list A) : Eval (list B) :=
  match l with
  | [] => ret []
  | x :: rest =>
    y <- f x ;;
    ys <- mapM f rest ;;
    ret (y :: ys)
  end.

(** [v.map(f)] *)
Definition callMap {B : Type} (v : JsValue) (f : JsValue -> Eval B)
    : Eval (list B) :=
  match v with
  | JsArray elements => mapM f elements
  | _ => throw "map is not a function"
  end.

(** [a || b] *)
Definition orValue (a b : JsValue) : JsValue :=
  if truthy a then a else b.

(** [v === s] for a string literal [s]. *)
Definition isString (v : JsValue) (s : string) : bool :=
  match v with
  | JsString t => t =? s
  | _ => false
  end.

Definition characters (s : string) : list JsValue :=
  map (fun c => JsString (String c EmptyString)) (list_ascii_of_string s).

(** [new Set(v)]: the elements of an array, the characters of a string. *)
Definition newSet (v : JsValue) : Eval (list JsValue) :=
  match v with
  | JsArray elements => ret elements
  | JsString s => ret (characters s)
  | _ => throw "is not iterable"
  end.

(** [set.has(key)] for a string [key]. *)
Definition setHas (set : list JsValue) (key : string) : bool :=
  existsb (fun v => isString v key) set.

Fixpoint indexed (i : nat) (elements : list JsValue) : list (string * JsValue) :=
  match elements with
  | [] => []
  | x :: rest => (NilEmpty.string_of_uint (Nat.to_uint i), x) :: indexed (S i) rest
  end.

(** [Object.entries(v)] on a value that is not [undefined] or [null]. *)
Definition objectEntries (v : JsValue) : list (string * JsValue) :=
  match v with
  | JsObject entries => entries
  | JsArray elements => indexed 0 elements
  | JsString s => indexed 0 (characters s)
  | _ => []
  end.

Fixpoint jsonSchemaToTypeScript (fuel : nat) (schema : JsValue) : Eval string :=
  match fuel with
  | O => None
  | S fuel =>
    if negb (truthy schema) then ret "any"
    else
      let type := getProperty schema "type" in
      if isString type "string" then
        if truthy (getProperty schema "enum") then
          values <- callMap (getProperty schema "enum")
                      (fun v => ret (quote (toString v))) ;;
          ret (Js.join " | " values)
        else ret "string"
      else if isString type "number" || isString type "integer" then ret "number"
      else if isString type "boolean" then ret "boolean"
      else if isString type "null" then ret "null"
      else if isString type "array" then
        itemType <- jsonSchemaToTypeScript fuel (getProperty schema "items") ;;
        ret (itemType ++ "[]")
      else if isString type "object" then
        if negb (truthy (getProperty schema "properties"))
        then ret "Record<string, any>"
        else
          required <- newSet (orValue (getProperty schema "required") (JsArray [])) ;;
          props <- mapM (fun entry : string * JsValue =>
                           let (key, propSchema) := entry in
                           type <- jsonSchemaToTypeScript fuel propSchema ;;
                           ret (propertyLine (setHas required key) key type))
                        (objectEntries (getProperty schema "properties")) ;;
          let additional := getProperty schema "additionalProperties" in
          props <- (if truthy additional then
                      additionalType <-
                        (match additional with
                         | JsBoolean true => ret "any"
                         | _ => jsonSchemaToTypeScript fuel additional
                         end) ;;
                      ret (props +++ [indexSignatureLine additionalType])
                    else ret props) ;;
          ret (objectLiteral props)
      else
        (* Handle union types *)
        if isArray type then
          parts <- callMap type
                     (fun t => jsonSchemaToTypeScript fuel (JsObject [("type", t)])) ;;
          ret (Js.join " | " parts)
        (* Handle anyOf/oneOf *)
        else if truthy (orValue (getProperty schema "anyOf")
                          (getProperty schema "oneOf")) then
          parts <- callMap (orValue (getProperty schema "anyOf")
                              (getProperty schema "oneOf"))
                     (jsonSchemaToTypeScript fuel) ;;
          ret (Js.join " | " parts)
        (* Handle allOf (intersection) *)
        else if truthy (getProperty schema "allOf") then
          parts <- callMap (getProperty schema "allOf")
                     (jsonSchemaToTypeScript fuel) ;;
          ret (Js.join " & " parts)
        else ret "any"
  end.

End Dynamic.






(** ** utils.ts *)

(** The class [[-_\s]]. *)
Definition isSeparator (c : ascii) : bool :=
  Ascii.eqb c "-"%char || Ascii.eqb c "_"%char || Js.isWhitespace c.

(** [str.replace(/[-_\s]+(.)?/g, (_, char) => (char ? char.toUpperCase() : ""))].
    [afterRun] holds while the match has consumed a run of separators and
    the optional group [(.)?] is still to come: the character that ends
    the run is the group (it is no line terminator, those are in [\s]); a run
    at the end of the string is replaced by the empty string. *)
Fixpoint replaceSeparators (afterRun : bool) (str : string) : string :=
  match str with
  | EmptyString => EmptyString
  | String c rest =>
    if isSeparator c then replaceSeparators true rest
    else String (if afterRun then Js.toUpperCase c else c)
                (replaceSeparators false rest)
  end.

(** [.] matches any character but a line terminator. *)
Definition isLineTerminator (c : ascii) : bool :=
  Ascii.eqb c (ascii_of_nat 10) || Ascii.eqb c (ascii_of_nat 13).

(** [str.replace(/^(.)/, (char) => f(char))] *)
Definition replaceFirst (f : ascii -> ascii) (str : string) : string :=
  match str with
  | EmptyString => EmptyString
  | String c rest => if isLineTerminator c then str else String (f c) rest
  end.

Definition pascalCase (str : string) : string :=
  replaceFirst Js.toUpperCase (replaceSeparators false str).

Definition camelCase (str : string) : string :=
  replaceFirst Js.toLowerCase (replaceSeparators false str).

(** ** Descriptors ([@modelcontextprotocol/sdk/types.js], [introspection.ts]) *)

Record Tool : Type := mkTool {
  tool_name : string;
  tool_description : option string;
  tool_inputSchema : option Schema
}.

Record Resource : Type := mkResource {
  resource_uri : string;
  resource_name : option string;
  resource_description : option string
}.

Record PromptArgument : Type := mkPromptArgument {
  arg_name : string;
  arg_required : option bool
}.

Record Prompt : Type := mkPrompt {
  prompt_name : string;
  prompt_description : option string;
  prompt_arguments : option (list PromptArgument)
}.

Record IntrospectionResult : Type := mkIntrospectionResult {
  tools : list Tool;
  resources : list Resource;
  prompts : list Prompt;
  error : option string
}.

(** ** The ts-morph structures the generator fills in *)

Record JsDoc : Type := mkJsDoc {
  doc_description : string;
  doc_tags : list (string * string)
}.

Record ParameterDeclaration : Type := mkParameter {
  param_name : string;
  param_type : string
}.

Record PropertySignature : Type := mkPropertySignature {
  prop_name : string;
  prop_type : string;
  prop_hasQuestionToken : bool;
  prop_docs : list JsDoc
}.

Record InterfaceDeclaration : Type := mkInterface {
  iface_name : string;
  iface_isExported : bool;
  iface_docs : list JsDoc;
  iface_properties : list PropertySignature
}.

Record MethodDeclaration : Type := mkMethod {
  method_name : string;
  method_isAsync : bool;
  method_parameters : list ParameterDeclaration;
  method_returnType : string;
  method_docs : list JsDoc;
  method_statements : list string
}.

Inductive Scope : Type := Public | Protected | Private.

Record PropertyDeclaration : Type := mkProperty {
  field_name : string;
  field_type : string;
  field_scope : Scope
}.

Record ConstructorDeclaration : Type := mkConstructor {
  ctor_parameters : list ParameterDeclaration;
  ctor_statements : list string
}.

Record ClassDeclaration : Type := mkClass {
  class_name : string;
  class_isExported : bool;
  class_docs : list JsDoc;
  class_properties : list PropertyDeclaration;
  class_constructors : list ConstructorDeclaration;
  class_methods : list MethodDeclaration
}.

Record FunctionDeclaration : Type := mkFunction {
  fn_name : string;
  fn_isExported : bool;
  fn_parameters : list ParameterDeclaration;
  fn_returnType : string;
  fn_statements : list string
}.

Record ImportDeclaration : Type := mkImport {
  import_moduleSpecifier : string;
  import_namedImports : list string;
  import_isTypeOnly : bool
}.

(** A top-level statement of the source file: a line of text given to
    [addStatements], or a structure given to one of the [add...] calls. *)
Inductive Statement : Type :=
| StText (line : string)
| StImport (d : ImportDeclaration)
| StInterface (d : InterfaceDeclaration)
| StClass (d : ClassDeclaration)
| StFunction (d : FunctionDeclaration).

Definition SourceFile : Type := list Statement.

(** ** The generator monad

    The generator only ever appends to the source file and reads the clock
    ([new Date().toISOString()]). A computation takes the clock (the i-th
    reading of a run is [now i]) and the number of readings made so far; it
    returns its value, the statements it appended and the new count. *)

Definition Clock : Type := nat -> string.

Definition Gen (A : Type) : Type := Clock -> nat -> A * SourceFile * nat.

Definition ret {A : Type} (a : A) : Gen A :=
  fun _ n => (a, [], n).

Definition bind {A B : Type} (m : Gen A) (k : A -> Gen B) : Gen B :=
  fun now n =>
    let '(a, out1, n1) := m now n in
    let '(b, out2, n2) := k a now n1 in
    (b, out1 +++ out2, n2).

Declare Scope gen_scope.
Delimit Scope gen_scope with gen.
Notation "x <- m ;; k" := (bind m (fun x => k))
  (at level 61, m at next level, right associativity) : gen_scope.
Notation "m ;; k" := (bind m (fun _ => k))
  (at level 61, right associativity) : gen_scope.
Open Scope gen_scope.

(** [new Date().toISOString()] *)
Definition toISOString : Gen string :=
  fun now n => (now n, [], S n).

Definition emit (out : SourceFile) : Gen unit :=
  fun _ n => (tt, out, n).

Definition addStatements (lines : list string) : Gen unit :=
  emit (map StText lines).

Definition addImportDeclaration (d : ImportDeclaration) : Gen unit :=
  emit [StImport d].

Definition addInterface (d : InterfaceDeclaration) : Gen unit :=
  emit [StInterface d].

Definition addClass (d : ClassDeclaration) : Gen unit :=
  emit [StClass d].

Definition addFunction (d : FunctionDeclaration) : Gen unit :=
  emit [StFunction d].

(** [for (const x of xs) body(x)] *)
Fixpoint forEach {A : Type} (body : A -> Gen unit) (xs : list A) : Gen unit :=
  match xs with
  | [] => ret tt
  | x :: rest => body x ;; forEach body rest
  end.

(** The statements a computation appends, started after [n] clock readings. *)
Definition emitted {A : Type} (m : Gen A) (now : Clock) (n : nat) : SourceFile :=
  snd (fst (m now n)).

Definition readings {A : Type} (m : Gen A) (now : Clock) (n : nat) : nat :=
  snd (m now n).

(** ** interface-generator.ts *)

(** [if (d) addJsDoc({ description: d })]: an absent or empty description
    adds nothing. *)
Definition describe (d : option string) : list JsDoc :=
  match d with
  | Some (String c rest) => [mkJsDoc (String c rest) []]
  | _ => []
  end.

(** [tool.inputSchema?.type === "object" && tool.inputSchema.properties]:
    the entries of [properties] and the [required] field when the test
    holds. *)
Definition objectProperties (inputSchema : option Schema)
    : option (list (string * Schema) * option (list string)) :=
  match inputSchema with
  | Some (Node f) =>
    match type f, properties f with
    | Some (TypeName t), Some entries =>
      if t =? "object" then Some (entries, required f) else None
    | _, _ => None
    end
  | None => None
  end.

Definition schemaDescription (s : Schema) : option string :=
  match s with
  | Node f => description f
  end.

(** The declaration [generateToolInterface] builds for a tool. *)
Definition toolInterface (tool : Tool) : InterfaceDeclaration :=
  let interfaceName := pascalCase (tool_name tool) ++ "Input" in
  (* Parse the input schema to TypeScript *)
  let typeString := jsonSchemaToTypeScript (tool_inputSchema tool) in
  let docs := describe (tool_description tool) in
  let props :=
    match objectProperties (tool_inputSchema tool) with
    | Some (entries, req) =>
      (* If we have object properties, add them individually *)
      let required := Js.orElse req [] in
      map (fun entry : string * Schema =>
             let (key, propSchema) := entry in
             mkPropertySignature key (jsonSchemaToTypeScript (Some propSchema))
               (negb (Js.has required key))
               (describe (schemaDescription propSchema)))
          entries
    | None =>
      if typeString =? "{}" then []
      else
        (* For non-object types, create a wrapper interface *)
        [mkPropertySignature "value" typeString false []]
    end in
  mkInterface interfaceName true docs props.

Definition generateToolInterface (tool : Tool) : Gen InterfaceDeclaration :=
  let interfaceDecl := toolInterface tool in
  addInterface interfaceDecl ;;
  ret interfaceDecl.

(** ** class-generator.ts *)

Definition addMethod (classDecl : ClassDeclaration) (m : MethodDeclaration)
    : ClassDeclaration :=
  mkClass (class_name classDecl) (class_isExported classDecl)
    (class_docs classDecl) (class_properties classDecl)
    (class_constructors classDecl) (class_methods classDecl +++ [m]).

(** Generate a method for a tool *)
Definition toolMethod (tool : Tool) : MethodDeclaration :=
  let methodName := camelCase (tool_name tool) in
  let inputType :=
    match tool_inputSchema tool with
    | Some _ => pascalCase (tool_name tool) ++ "Input"
    | None => "void"
    end in
  let hasInput := negb (inputType =? "void") in
  let callArgs := if hasInput then "input" else "{}" in
  mkMethod methodName true
    (if hasInput then [mkParameter "input" inputType] else [])
    "Promise<any>"
    (describe (tool_description tool))
    [ "const result = await this.connection.client.callTool({";
      "  name: " ++ dq ++ tool_name tool ++ dq ++ ",";
      "  arguments: " ++ callArgs ++ ",";
      "});";
      "return handleToolResult(result, " ++ dq ++ tool_name tool ++ dq ++ ");" ].

Definition generateToolMethod (classDecl : ClassDeclaration) (tool : Tool)
    : ClassDeclaration :=
  addMethod classDecl (toolMethod tool).

(** Add specific methods for known resources *)
Definition resourceMethod (resource : Resource) : list MethodDeclaration :=
  match resource_name resource with
  | Some (String c rest) =>
    [ mkMethod ("get" ++ pascalCase (String c rest)) true [] "Promise<any>"
        (describe (resource_description resource))
        [ "return this.getResource(" ++ dq ++ resource_uri resource ++ dq ++ ");" ] ]
  | _ => []
  end.

Definition generateResourceMethods (classDecl : ClassDeclaration)
    (resources : list Resource) : ClassDeclaration :=
  (* Add a generic getResource method *)
  let method :=
    mkMethod "getResource" true [mkParameter "uri" "string"] "Promise<any>"
      [mkJsDoc "Fetch a resource by URI" [("param", "uri - Resource URI")]]
      [ "const result = await this.connection.client.readResource({ uri });";
        "return handleResourceResult(result, uri);" ] in
  fold_left addMethod (flat_map resourceMethod resources)
    (addMethod classDecl method).

Definition promptMethod (prompt : Prompt) : MethodDeclaration :=
  let methodName := camelCase (prompt_name prompt) ++ "Prompt" in
  (* Build parameter type *)
  let params :=
    map (fun arg =>
           let optional :=
             match arg_required arg with
             | Some true => ""
             | _ => "?"
             end in
           arg_name arg ++ optional ++ ": string")
        (Js.orElse (prompt_arguments prompt) []) in
  let hasParams := negb (Nat.eqb (List.length params) 0) in
  let argsParam := if hasParams then "args" else "{}" in
  mkMethod methodName true
    (if hasParams
     then [mkParameter "args" ("{ " ++ Js.join "; " params ++ " }")]
     else [])
    "Promise<any>"
    (describe (prompt_description prompt))
    [ "const result = await this.connection.client.getPrompt({";
      "  name: " ++ dq ++ prompt_name prompt ++ dq ++ ",";
      "  arguments: " ++ argsParam ++ ",";
      "});";
      "return result.messages;" ].

Definition generatePromptMethods (classDecl : ClassDeclaration)
    (prompts : list Prompt) : ClassDeclaration :=
  fold_left (fun c prompt => addMethod c (promptMethod prompt)) prompts classDecl.

(** The class [generateClientClass] builds for a server, [generated] being
    the clock reading of its [@generated] tag. *)
Definition clientClass (generated serverName : string)
    (result : IntrospectionResult) : ClassDeclaration :=
  let className := pascalCase serverName ++ "Client" in
  let classDecl :=
    mkClass className true
      (* Add JSDoc *)
      [mkJsDoc ("MCP client for " ++ serverName ++ " server")
         [("generated", generated)]]
      (* Add private connection property *)
      [mkProperty "connection" "McpConnection" Private]
      (* Add constructor *)
      [mkConstructor [mkParameter "connection" "McpConnection"]
         ["this.connection = connection;"]]
      [] in
  (* Generate methods for each tool *)
  let classDecl := fold_left generateToolMethod (tools result) classDecl in
  (* Generate methods for resources *)
  let classDecl :=
    match resources result with
    | [] => classDecl
    | _ :: _ => generateResourceMethods classDecl (resources result)
    end in
  (* Generate methods for prompts *)
  match prompts result with
  | [] => classDecl
  | _ :: _ => generatePromptMethods classDecl (prompts result)
  end.

(** Generate client class for an MCP server *)
Definition generateClientClass (serverName : string)
    (result : IntrospectionResult) : Gen ClassDeclaration :=
  generated <- toISOString ;;
  let classDecl := clientClass generated serverName result in
  addClass classDecl ;;
  ret classDecl.

(** ** file-builder.ts *)

(** Options for code generation *)
Record CodegenOptions : Type := mkOptions {
  outputPath : option string;
  clientPrefix : option string;
  includeComments : option bool;
  treeShakable : option bool
}.

(** [options = {}] *)
Definition defaultOptions : CodegenOptions := mkOptions None None None None.

(** The text of the two helper functions, one entry per line. *)
Definition utilityFunctionLines : list string :=
  [ "/**";
    " * Helper function to handle MCP tool call results with proper error checking";
    " * @param result - The result from client.callTool()";
    " * @param toolName - Name of the tool for error messages";
    " * @returns The first content item from the result";
    " * @throws Error if the tool returned an error or invalid content";
    " */";
    "function handleToolResult<T = any>(result: any, toolName: string): T {";
    "  // Check if the tool returned an error";
    "  if (result.isError) {";
    "    const errorContent = result.content?.[0];";
    "    const errorMessage =";
    "      errorContent && typeof errorContent === " ++ dq ++ "object" ++ dq
      ++ " && " ++ dq ++ "text" ++ dq ++ " in errorContent";
    "        ? String(errorContent.text)";
    "        : " ++ dq ++ "Tool execution failed" ++ dq ++ ";";
    "    throw new Error(`Tool '${toolName}' error: ${errorMessage}`);";
    "  }";
    "";
    "  // Validate content exists and is non-empty";
    "  if (";
    "    !result.content ||";
    "    !Array.isArray(result.content) ||";
    "    result.content.length === 0";
    "  ) {";
    "    throw new Error(`Tool '${toolName}' returned empty content`);";
    "  }";
    "";
    "  // Extract the first content item";
    "  const content = result.content[0];";
    "  if (!content || typeof content !== " ++ dq ++ "object" ++ dq ++ ") {";
    "    throw new Error(`Tool '${toolName}' returned invalid content structure`);";
    "  }";
    "";
    "  return content as T;";
    "}";
    "";
    "/**";
    " * Helper function to handle MCP resource read results";
    " * @param result - The result from client.readResource()";
    " * @param resourceUri - URI of the resource for error messages";
    " * @returns The first content item from the result";
    " * @throws Error if the resource returned empty contents";
    " */";
    "function handleResourceResult<T = any>(";
    "  result: any,";
    "  resourceUri: string,";
    "): T {";
    "  // Validate contents exist";
    "  if (";
    "    !result.contents ||";
    "    !Array.isArray(result.contents) ||";
    "    result.contents.length === 0";
    "  ) {";
    "    throw new Error(`Resource '${resourceUri}' returned empty contents`);";
    "  }";
    "";
    "  return result.contents[0] as T;";
    "}";
    "" ].

(** Add utility functions to the source file *)
Definition addUtilityFunctions : Gen unit :=
  addStatements utilityFunctionLines.

(** The statements before the per-server loop: header, imports, helpers. *)
Definition addPreamble : Gen unit :=
  (* Add file header *)
  generatedAt <- toISOString ;;
  addStatements
    [ "/* Generated MCP Client SDK */";
      "/* Generated at: " ++ generatedAt ++ " */";
      "" ] ;;
  (* Add imports *)
  addImportDeclaration
    (mkImport "@modelcontextprotocol/sdk/client/index.js" ["Client"] false) ;;
  addImportDeclaration (mkImport "./types.js" ["McpConnection"] true) ;;
  addStatements [""] ;;
  (* Embed utility functions directly in the generated code *)
  addUtilityFunctions.

(** Create singleton instance if tree-shakable *)
Definition addSingleton (serverName : string) (classDecl : ClassDeclaration)
    : Gen unit :=
  let instanceName := camelCase serverName in
  addStatements
    [ "";
      "// Singleton instance for " ++ serverName;
      "let _" ++ instanceName ++ ": " ++ class_name classDecl ++ " | undefined;";
      "" ] ;;
  addFunction
    (mkFunction ("get" ++ pascalCase serverName ++ "Client") true
       [mkParameter "connection" "McpConnection"]
       (class_name classDecl)
       [ "if (!_" ++ instanceName ++ ") {";
         "  _" ++ instanceName ++ " = new " ++ class_name classDecl ++ "(connection);";
         "}";
         "return _" ++ instanceName ++ ";" ]).

(** The body of the loop over the servers. *)
Definition generateServer (options : CodegenOptions)
    (entry : string * IntrospectionResult) : Gen unit :=
  let (serverName, result) := entry in
  if Js.truthy (error result) then
    addStatements
      [ "// Error introspecting " ++ serverName ++ ": "
          ++ Js.orElse (error result) "";
        "" ]
  else
    (* Generate tool interfaces *)
    forEach (fun tool =>
               match tool_inputSchema tool with
               | Some _ => generateToolInterface tool ;; ret tt
               | None => ret tt
               end)
            (tools result) ;;
    (* Generate client class *)
    classDecl <- generateClientClass serverName result ;;
    match treeShakable options with
    | Some false => ret tt
    | _ => addSingleton serverName classDecl
    end.

(** The source file [generateClientFile] builds, before it is printed. *)
Definition buildSourceFile (servers : list (string * IntrospectionResult))
    (options : CodegenOptions) : Gen unit :=
  addPreamble ;;
  forEach (generateServer options) servers.

(** *** Printing ([formatText] and [getFullText])

    A model of the ts-morph printer with the layout of
    [examples/notion-generated.ts]: one entry per line written; a
    description or a type expression that spans several lines stays in the
    entry of the line it is written on. *)

Definition indentBy (pad : string) (lines : list string) : list string :=
  map (fun l => pad ++ l) lines.

Definition printJsDoc (d : JsDoc) : list string :=
  match doc_tags d with
  | [] => ["/** " ++ doc_description d ++ " */"]
  | tags =>
    ["/**"; " * " ++ doc_description d]
    +++ map (fun tag : string * string => " * @" ++ fst tag ++ " " ++ snd tag) tags
    +++ [" */"]
  end.

Definition printDocs (docs : list JsDoc) : list string :=
  flat_map printJsDoc docs.

Definition printParameters (ps : list ParameterDeclaration) : string :=
  Js.join ", " (map (fun p => param_name p ++ ": " ++ param_type p) ps).

Definition exportKeyword (isExported : bool) : string :=
  if isExported then "export " else "".

Definition printPropertySignature (p : PropertySignature) : list string :=
  indentBy "  " (printDocs (prop_docs p))
  +++ ["  " ++ prop_name p ++ (if prop_hasQuestionToken p then "?" else "")
         ++ ": " ++ prop_type p ++ ";"].

Definition printInterface (d : InterfaceDeclaration) : list string :=
  let head := exportKeyword (iface_isExported d) ++ "interface " ++ iface_name d in
  printDocs (iface_docs d)
  +++ match iface_properties d with
      | [] => [head ++ " {}"]
      | ps => [head ++ " {"] +++ flat_map printPropertySignature ps +++ ["}"]
      end.

Definition printScope (s : Scope) : string :=
  match s with
  | Public => "public "
  | Protected => "protected "
  | Private => "private "
  end.

Definition printProperty (p : PropertyDeclaration) : list string :=
  ["  " ++ printScope (field_scope p) ++ field_name p ++ ": " ++ field_type p ++ ";"].

Definition printConstructor (c : ConstructorDeclaration) : list string :=
  [""; "  constructor(" ++ printParameters (ctor_parameters c) ++ ") {"]
  +++ indentBy "    " (ctor_statements c) +++ ["  }"].

Definition printMethod (m : MethodDeclaration) : list string :=
  [""] +++ indentBy "  " (printDocs (method_docs m))
  +++ ["  " ++ (if method_isAsync m then "async " else "") ++ method_name m
         ++ "(" ++ printParameters (method_parameters m) ++ "): "
         ++ method_returnType m ++ " {"]
  +++ indentBy "    " (method_statements m) +++ ["  }"].

Definition printClass (d : ClassDeclaration) : list string :=
  printDocs (class_docs d)
  +++ [exportKeyword (class_isExported d) ++ "class " ++ class_name d ++ " {"]
  +++ flat_map printProperty (class_properties d)
  +++ flat_map printConstructor (class_constructors d)
  +++ flat_map printMethod (class_methods d)
  +++ ["}"].

Definition printFunction (d : FunctionDeclaration) : list string :=
  [exportKeyword (fn_isExported d) ++ "function " ++ fn_name d ++ "("
     ++ printParameters (fn_parameters d) ++ "): " ++ fn_returnType d ++ " {"]
  +++ indentBy "  " (fn_statements d) +++ ["}"].

Definition printImport (d : ImportDeclaration) : list string :=
  ["import " ++ (if import_isTypeOnly d then "type " else "") ++ "{ "
     ++ Js.join ", " (import_namedImports d) ++ " } from " ++ dq
     ++ import_moduleSpecifier d ++ dq ++ ";"].

Definition printStatement (s : Statement) : list string :=
  match s with
  | StText line => [line]
  | StImport d => printImport d
  | StInterface d => printInterface d
  | StClass d => printClass d
  | StFunction d => printFunction d
  end.

Definition getFullText (sourceFile : SourceFile) : list string :=
  flat_map printStatement sourceFile.

(** Generate complete TypeScript client file: the lines of the text
    returned, given the clock of the run. *)
Definition generateSourceFile (now : Clock)
    (servers : list (string * IntrospectionResult))
    (options : CodegenOptions) : SourceFile :=
  emitted (buildSourceFile servers options) now 0.

Definition generateClientFile (now : Clock)
    (servers : list (string * IntrospectionResult))
    (options : CodegenOptions) : list string :=
  getFullText (generateSourceFile now servers options).

(** ** The helper functions of the generated module

    The behaviour of the functions whose text is [utilityFunctionLines]. *)

Module Runtime.

Import Value.

(** The raw result of [client.callTool()]; an absent field is
    [JsUndefined]. *)
Record CallToolResult : Type := mkCallToolResult {
  isError : JsValue;
  content : JsValue
}.

Record ReadResourceResult : Type := mkReadResourceResult {
  contents : JsValue
}.

(** What a call of a helper does: it returns a value, or throws an
    [Error] with a message. *)
Inductive Outcome : Type :=
| Returned (value : JsValue)
| Thrown (message : string).

Definition handleToolResult (result : CallToolResult) (toolName : string)
    : Outcome :=
  (* Check if the tool returned an error *)
  if truthy (isError result) then
    let errorContent := optionalFirst (content result) in
    let errorMessage :=
      if truthy errorContent && typeofObject errorContent
         && hasProperty "text" errorContent
      then toString (getProperty errorContent "text")
      else "Tool execution failed" in
    Thrown ("Tool '" ++ toolName ++ "' error: " ++ errorMessage)
  (* Validate content exists and is non-empty *)
  else if negb (truthy (content result))
          || negb (isArray (content result))
          || match content result with
             | JsArray [] => true
             | _ => false
             end
  then Thrown ("Tool '" ++ toolName ++ "' returned empty content")
  else
    (* Extract the first content item *)
    let content := first (content result) in
    if negb (truthy content) || negb (typeofObject content)
    then Thrown ("Tool '" ++ toolName ++ "' returned invalid content structure")
    else Returned content.

Definition handleResourceResult (result : ReadResourceResult)
    (resourceUri : string) : Outcome :=
  (* Validate contents exist *)
  if negb (truthy (contents result))
     || negb (isArray (contents result))
     || match contents result with
        | JsArray [] => true
        | _ => false
        end
  then Thrown ("Resource '" ++ resourceUri ++ "' returned empty contents")
  else Returned (first (contents result)).

(** The failure conditions, by the message of the [Error] thrown. *)
Definition OperationFailed (toolName errorMessage : string) : Outcome :=
  Thrown ("Tool '" ++ toolName ++ "' error: " ++ errorMessage).

Definition EmptyResult (toolName : string) : Outcome :=
  Thrown ("Tool '" ++ toolName ++ "' returned empty content").

Definition InvalidContent (toolName : string) : Outcome :=
  Thrown ("Tool '" ++ toolName ++ "' returned invalid content structure").

(** The result signals an error state; it carries no content items. *)
Definition signalsError (result : CallToolResult) : Prop :=
  truthy (isError result) = true.

Definition contentItems (result : CallToolResult) : list JsValue :=
  match content result with
  | JsArray elements => elements
  | _ => []
  end.

(** A content item that is an object or an array. *)
Definition isObjectItem (item : JsValue) : bool :=
  truthy item && typeofObject item.

End Runtime.

(** ** config.ts *)

Module Config.

Import Value.

(** [type: "http" | "sse"] *)
Inductive ServerType : Type := Http | Sse.

(** MCP server connection config. *)
Record McpServer : Type := mkServer {
  server_type : ServerType;
  server_url : string
}.

(** [str.trim()]: the whitespace and line terminators at both ends go. *)
Fixpoint trimStart (str : string) : string :=
  match str with
  | EmptyString => EmptyString
  | String c rest => if Js.isWhitespace c then trimStart rest else str
  end.

Fixpoint trimEnd (str : string) : string :=
  match str with
  | EmptyString => EmptyString
  | String c rest =>
    match trimEnd rest with
    | EmptyString => if Js.isWhitespace c then EmptyString else String c EmptyString
    | kept => String c kept
    end
  end.

Definition trim (str : string) : string := trimEnd (trimStart str).

(** The servers found so far and the URLs seen. *)
Record Found : Type := mkFound {
  servers : list McpServer;
  seenUrls : list string
}.

(** [typeof v === "object" && v !== null] *)
Definition isObject (v : JsValue) : bool :=
  match v with
  | JsArray _ | JsObject _ => true
  | _ => false
  end.

Definition nonEmpty (s : string) : bool :=
  match s with
  | EmptyString => false
  | String _ _ => true
  end.

(** The type of a server entry: [None] when the entry is skipped (a stdio
    server, or a type that is neither given as [http] or [sse] nor
    defaulted). [hasDefault] is [isVSCodeFormat || config.mcpServers]. *)
Definition inferType (hasDefault : bool) (server : JsValue) : option ServerType :=
  let type := getProperty server "type" in
  if Dynamic.isString type "http" then Some Http
  else if Dynamic.isString type "sse" then Some Sse
  else if Dynamic.isString type "stdio" || truthy (getProperty server "command")
  then
    (* stdio requires process spawning, not supported *)
    None
  else if negb (truthy type) then
    (* Missing type defaults to http for URL-based servers *)
    if hasDefault then Some Http else None
  else None.

(** The body of the loop over the entries of [serverConfigs]. *)
Definition processServerConfig (hasDefault : bool) (found : Found)
    (serverConfig : JsValue) : Found :=
  if isObject serverConfig then
    let trimmedUrl :=
      match getProperty serverConfig "url" with
      | JsString url => trim url
      | _ => EmptyString
      end in
    if nonEmpty trimmedUrl && negb (Js.has (seenUrls found) trimmedUrl) then
      match inferType hasDefault serverConfig with
      | Some serverType =>
        mkFound (servers found +++ [mkServer serverType trimmedUrl])
          (trimmedUrl :: seenUrls found)
      | None => found
      end
    else found
  else found.

(** The body of the [try] block, for the parsed content of one file; on
    [null] the first property access throws, and the file is skipped. *)
Definition processConfig (found : Found) (config : JsValue) : Found :=
  match config with
  | JsUndefined | JsNull => found
  | _ =>
    (* Claude/Cursor: mcpServers, VSCode: servers *)
    let isVSCodeFormat := truthy (getProperty config "servers") in
    let serverConfigs :=
      Dynamic.orValue (getProperty config "mcpServers")
        (getProperty config "servers") in
    if truthy serverConfigs && typeofObject serverConfigs then
      fold_left
        (processServerConfig
           (isVSCodeFormat || truthy (getProperty config "mcpServers")))
        (map snd (Dynamic.objectEntries serverConfigs))
        found
    else found
  end.

(** Parse MCP configs and extract unique server definitions.
    [readConfig path] is [JSON.parse(readFileSync(path, "utf8"))], [None]
    when the file cannot be read or is no JSON. *)
Definition getMcpServers (readConfig : string -> option JsValue)
    (paths : list string) : list McpServer :=
  servers
    (fold_left
       (fun found path =>
          match readConfig path with
          | Some config => processConfig found config
          | None => found
          end)
       paths
       (mkFound [] [])).

End Config.

(** ** introspection.ts: the capability cache *)

Module Introspection.

Import Config.

Definition typeName (t : ServerType) : string :=
  match t with
  | Http => "http"
  | Sse => "sse"
  end.

(** Key format: [`${server.type}:${server.url}`] *)
Definition cacheKey (server : McpServer) : string :=
  typeName (server_type server) ++ ":" ++ server_url server.

Section Cache.

(** The introspection results, of which the cache reads the [error] field
    only. *)
Variable Result : Type.
Variable errorOf : Result -> option string.

(** A [Map<string, IntrospectionResult>], as its entries in insertion
    order. *)
Definition Cache : Type := list (string * Result).

Fixpoint cacheGet (key : string) (cache : Cache) : option Result :=
  match cache with
  | [] => None
  | (k, v) :: rest => if k =? key then Some v else cacheGet key rest
  end.

Fixpoint cacheSet (key : string) (value : Result) (cache : Cache) : Cache :=
  match cache with
  | [] => [(key, value)]
  | (k, v) :: rest =>
    if k =? key then (k, value) :: rest else (k, v) :: cacheSet key value rest
  end.

(** Get cached server capabilities or introspect if not cached.
    [introspectServer] gives the result the awaited introspection resolves
    to; the cache is the one at the time of the call, no other call
    running in between. *)
Definition getCachedCapabilities (capabilityCache : Cache) (server : McpServer)
    (forceRefresh : bool) (introspectServer : McpServer -> Result)
    : Result * Cache :=
  let key := cacheKey server in
  match (if forceRefresh then None else cacheGet key capabilityCache) with
  | Some cached => (cached, capabilityCache)
  | None =>
    let result := introspectServer server in
    if Js.truthy (errorOf result) then (result, capabilityCache)
    else (result, cacheSet key result capabilityCache)
  end.

(** Clear the capability cache. *)
Definition clearCapabilityCache (capabilityCache : Cache) : Cache := [].

End Cache.

End Introspection.

(** ** Notions the properties are stated with *)

(** The type names the converter has a case for. *)
Definition knownTypeNames : list string :=
  ["string"; "number"; "integer"; "boolean"; "null"; "array"; "object"].




(** The index signature an [additionalProperties] field calls for. *)
Definition indexSignatureFor (a : Additional Schema) : list string :=
  match a with
  | AdditionalSchema s =>
    ["  [key: string]: " ++ jsonSchemaToTypeScript (Some s) ++ ";"]
  | AdditionalBool true => ["  [key: string]: any;"]
  | AdditionalBool false | AdditionalAbsent => []
  end.

(** Two names that differ only in their separator characters: the same
    characters in the same order, but for the ['-'], ['_'] and spaces: where
    one name has a run of them the other has a run of them too, of any
    length and of any of the three. *)
Definition isNameSeparator (c : ascii) : bool :=
  Ascii.eqb c "-"%char || Ascii.eqb c "_"%char || Ascii.eqb c " "%char.

Inductive sameUpToSeparators : string -> string -> Prop :=
| same_empty : sameUpToSeparators EmptyString EmptyString
| same_char c a b :
    sameUpToSeparators a b ->
    sameUpToSeparators (String c a) (String c b)
| same_separator c d a b :
    isNameSeparator c = true -> isNameSeparator d = true ->
    sameUpToSeparators a b ->
    sameUpToSeparators (String c a) (String d b)
| same_longer_left c d a b :
    isNameSeparator c = true -> isNameSeparator d = true ->
    sameUpToSeparators a (String d b) ->
    sameUpToSeparators (String c a) (String d b)
| same_longer_right c d a b :
    isNameSeparator c = true -> isNameSeparator d = true ->
    sameUpToSeparators (String c a) b ->
    sameUpToSeparators (String c a) (String d b).

(** The number of positions at which two texts, given line by line, do not
    carry the same line. *)
Fixpoint differingLines (a b : list string) : nat :=
  match a, b with
  | [], rest | rest, [] => List.length rest
  | x :: a', y :: b' => (if x =? y then 0 else 1) + differingLines a' b'
  end.

(** Two lines that are equal, or are both the header timestamp line, or are
    both the [@generated] line of a class. *)
Definition sameButTimestamp (l1 l2 : string) : Prop :=
  l1 = l2
  \/ (exists t1 t2, l1 = "/* Generated at: " ++ t1 ++ " */"
                    /\ l2 = "/* Generated at: " ++ t2 ++ " */")
  \/ (exists t1 t2, l1 = " * @generated " ++ t1 /\ l2 = " * @generated " ++ t2).

(** The servers a class is generated for. *)
Definition generatedClasses (servers : list (string * IntrospectionResult)) : nat :=
  List.length (filter (fun entry => negb (Js.truthy (error (snd entry)))) servers).

(** The declarations of the operations of a server that have an input
    schema, in order. *)
Definition toolInterfaces (result : IntrospectionResult) : SourceFile :=
  flat_map (fun tool =>
              match tool_inputSchema tool with
              | Some _ => [StInterface (toolInterface tool)]
              | None => []
              end)
           (tools result).

(** The comment that stands for a server whose introspection failed. *)
Definition errorComment (serverName message : string) : string :=
  "// Error introspecting " ++ serverName ++ ": " ++ message.

(** Two texts agree up to [k] timestamp lines. *)
Definition agreeUpTo (k : nat) (a b : list string) : Prop :=
  Forall2 sameButTimestamp a b /\ differingLines a b <= k.

(** The methods of the class of a server: one per operation, the resource
    accessors when there are resources, one per prompt. *)
Definition classMethods (result : IntrospectionResult) : list MethodDeclaration :=
  map toolMethod (tools result)
  +++ match resources result with
      | [] => []
      | _ :: _ =>
        mkMethod "getResource" true [mkParameter "uri" "string"] "Promise<any>"
          [mkJsDoc "Fetch a resource by URI" [("param", "uri - Resource URI")]]
          [ "const result = await this.connection.client.readResource({ uri });";
            "return handleResourceResult(result, uri);" ]
        :: flat_map resourceMethod (resources result)
      end
  +++ map promptMethod (prompts result).

(** [text] has the line [line]. *)
Definition hasLine (text : list string) (line : string) : bool :=
  existsb (String.eqb line) text.

(** No character of [s] is matched by [[-_\s]]. *)
Fixpoint hasNoSeparator (s : string) : bool :=
  match s with
  | EmptyString => true
  | String c rest => negb (isSeparator c) && hasNoSeparator rest
  end.

(** A node without its [anyOf], [oneOf] and [allOf] fields. *)
Definition withoutCombinators (f : SchemaFields Schema) : SchemaFields Schema :=
  mkSchemaFields (type f) (enum f) (description f) (items f) (properties f)
    (required f) (additionalProperties f) None None None.

(** A node with other [oneOf] and [allOf] fields. *)
Definition withOneOfAllOf (one all : option (list Schema))
    (f : SchemaFields Schema) : SchemaFields Schema :=
  mkSchemaFields (type f) (enum f) (description f) (items f) (properties f)
    (required f) (additionalProperties f) (anyOf f) one all.

(** A [type] that is no array and none of the names the converter has a
    case for. *)
Definition typeUnrecognized (f : SchemaFields Schema) : bool :=
  match type f with
  | None => true
  | Some (TypeName t) => negb (existsb (String.eqb t) knownTypeNames)
  | Some (TypeList _) => false
  end.


(** The text of one argument in the parameter type of a prompt method. *)
Definition argumentText (arg : PromptArgument) : string :=
  arg_name arg
  ++ match arg_required arg with
     | Some true => ""
     | _ => "?"
     end
  ++ ": string".






(** The entries of a read result. *)
Definition resourceContents (result : Runtime.ReadResourceResult)
    : list Value.JsValue :=
  match Runtime.contents result with
  | Value.JsArray elements => elements
  | _ => []
  end.

(** *** What [getMcpServers] reads in a config *)

(** The entries the loop of [getMcpServers] goes through in a parsed
    config, and whether an entry without [type] defaults to [http]. *)
Definition configEntries (config : Value.JsValue) : list Value.JsValue :=
  match config with
  | Value.JsUndefined | Value.JsNull => []
  | _ =>
    let serverConfigs :=
      Dynamic.orValue (Value.getProperty config "mcpServers")
        (Value.getProperty config "servers") in
    if Value.truthy serverConfigs && Value.typeofObject serverConfigs
    then map snd (Dynamic.objectEntries serverConfigs)
    else []
  end.

Definition hasDefaultType (config : Value.JsValue) : bool :=
  Value.truthy (Value.getProperty config "servers")
  || Value.truthy (Value.getProperty config "mcpServers").

(** The server an entry stands for, URLs seen apart: an object with a
    string [url] that is not blank and a type that [inferType] accepts. *)
Definition candidate (hasDefault : bool) (serverConfig : Value.JsValue)
    : option Config.McpServer :=
  if Config.isObject serverConfig then
    match Value.getProperty serverConfig "url" with
    | Value.JsString url =>
      if Config.nonEmpty (Config.trim url) then
        option_map (fun serverType => Config.mkServer serverType (Config.trim url))
          (Config.inferType hasDefault serverConfig)
      else None
    | _ => None
    end
  else None.

Definition optionToList {A : Type} (x : option A) : list A :=
  match x with
  | Some a => [a]
  | None => []
  end.

(** The candidates of the files at [paths], in the order they are read. *)
Definition candidates (readConfig : string -> option Value.JsValue)
    (paths : list string) : list Config.McpServer :=
  flat_map (fun path =>
              match readConfig path with
              | Some config =>
                flat_map (fun serverConfig =>
                            optionToList (candidate (hasDefaultType config) serverConfig))
                         (configEntries config)
              | None => []
              end)
           paths.

(** The first server of each URL, the URLs in [seen] apart; and the URLs
    seen afterwards. *)
Fixpoint firstByUrl (seen : list string) (l : list Config.McpServer)
    : list Config.McpServer :=
  match l with
  | [] => []
  | s :: rest =>
    if Js.has seen (Config.server_url s) then firstByUrl seen rest
    else s :: firstByUrl (Config.server_url s :: seen) rest
  end.

Fixpoint seenAfter (seen : list string) (l : list Config.McpServer)
    : list string :=
  match l with
  | [] => seen
  | s :: rest =>
    if Js.has seen (Config.server_url s) then seenAfter seen rest
    else seenAfter (Config.server_url s :: seen) rest
  end.

(** *** config.ts: finding the config files *)

(** Priority-ordered paths for MCP configuration discovery. *)
Definition MCP_CONFIG_PATHS : list string :=
  [ ".mcp.local.json";
    ".mcp.json";
    ".cursor/mcp.local.json";
    ".cursor/mcp.json";
    ".vscode/mcp.local.json";
    ".vscode/mcp.json" ].

(** Scan filesystem for MCP config files in priority order; [resolve] and
    [existsSync] are those of [node:path] and [node:fs]. *)
Definition findMcpConfigFiles (resolve : string -> string -> string)
    (existsSync : string -> bool) (cwd : string) : list string :=
  flat_map (fun configPath =>
              let fullPath := resolve cwd configPath in
              if existsSync fullPath then [fullPath] else [])
           MCP_CONFIG_PATHS.

(** The message the tool helper extracts from a result in error state: the
    [text] of the first content item when that item is an object that has
    one. *)
Definition errorText (result : Runtime.CallToolResult) : option Value.JsValue :=
  match Value.optionalFirst (Runtime.content result) with
  | Value.JsObject entries => Value.lookup "text" entries
  | _ => None
  end.

(** * Properties *)

(** ** The type synthesizer *)

Section Converter.

Variable f : SchemaFields Schema.

Lemma convertNode_string :
  type f = Some (TypeName "string") ->
  convertNode (Node f)
  = match enum f with
    | Some values => Js.join " | " (map quote values)
    | None => "string"
    end.
Proof.
  intros Ht. simpl. rewrite Ht. reflexivity.
Qed.

Lemma convertNode_object (entries : list (string * Schema)) :
  type f = Some (TypeName "object") ->
  properties f = Some entries ->
  convertNode (Node f)
  = objectLiteral
      (map (fun entry : string * Schema =>
              propertyLine (Js.has (Js.orElse (required f) []) (fst entry)) (fst entry)
                (convertNode (snd entry)))
           entries
       +++ indexSignatureFor (additionalProperties f)).
Proof.
  intros Ht Hp. simpl. rewrite Ht, Hp. simpl.
  f_equal.
  assert (Hmap :
    map (fun entry : string * Schema =>
           let (key, propSchema) := entry in
           propertyLine (Js.has (Js.orElse (required f) []) key) key
             (convertNode propSchema))
        entries
    = map (fun entry : string * Schema =>
             propertyLine (Js.has (Js.orElse (required f) []) (fst entry)) (fst entry)
               (convertNode (snd entry)))
          entries).
  { apply map_ext. intros [k s]. reflexivity. }
  rewrite Hmap.
  destruct (additionalProperties f) as [ | [ | ] | s ]; simpl;
    try rewrite app_nil_r; reflexivity.
Qed.

End Converter.

Lemma has_true_iff (set : list string) (key : string) :
  Js.has set key = true <-> In key set.
Proof.
  unfold Js.has. rewrite existsb_exists. split.
  - intros [x [Hin Heq]]. apply String.eqb_eq in Heq. subst. exact Hin.
  - intros Hin. exists key. split; [exact Hin | apply String.eqb_refl].
Qed.

Lemma has_false_iff (set : list string) (key : string) :
  Js.has set key = false <-> ~ In key set.
Proof.
  rewrite <- has_true_iff. destruct (Js.has set key); split; intro H;
    try reflexivity; try discriminate; try congruence.
Qed.


(** The converter on the fresh object [{ type: t }] is [typeNameToTypeScript]. *)
Lemma jsonSchemaToTypeScript_typeOnly (t : string) :
  jsonSchemaToTypeScript (Some (Node (withType (TypeName t) emptyFields)))
  = typeNameToTypeScript t.
Proof.
  unfold typeNameToTypeScript. simpl.
  destruct (t =? "string"); [reflexivity | ].
  destruct ((t =? "number") || (t =? "integer")); [reflexivity | ].
  destruct (t =? "boolean"); [reflexivity | ].
  destruct (t =? "null"); [reflexivity | ].
  destruct (t =? "array"); [reflexivity | ].
  destruct (t =? "object"); reflexivity.
Qed.

(** ** The converter on raw values *)

Section Refinement.

Import Value.
Import Dynamic.







Section Fields.

Variable f : SchemaFields Schema.










End Fields.


Section Depth.

Variable f : SchemaFields Schema.







End Depth.





End Refinement.



(** Outside the schema nodes: on a value whose [enum] is no array, or whose
    [required] cannot be iterated, the converter throws. *)
Example malformed_values_throw :
  Dynamic.jsonSchemaToTypeScript 2
    (Value.JsObject [("type", Value.JsString "string");
                     ("enum", Value.JsBoolean true)])
  = Some (Dynamic.TypeError "map is not a function")
  /\ Dynamic.jsonSchemaToTypeScript 2
       (Value.JsObject [("type", Value.JsString "object");
                        ("properties", Value.JsObject []);
                        ("required", Value.JsBoolean true)])
     = Some (Dynamic.TypeError "is not iterable").
Proof.
  split; reflexivity.
Qed.


(** C9. An Object node with an empty properties map and no
    [additionalProperties] synthesizes to the empty structural type, while
    one with no properties at all synthesizes to the open record type. *)
Theorem empty_properties_object :
  forall f : SchemaFields Schema,
    type f = Some (TypeName "object") ->
    (properties f = Some [] ->
     additionalProperties f = AdditionalAbsent ->
     jsonSchemaToTypeScript (Some (Node f)) = "{}")
    /\ (properties f = None ->
        jsonSchemaToTypeScript (Some (Node f)) = "Record<string, any>").
Proof.
  intros f Ht. split.
  - intros Hp Ha. unfold jsonSchemaToTypeScript.
    rewrite (convertNode_object f [] Ht Hp), Ha. reflexivity.
  - intros Hp. simpl. rewrite Ht, Hp. reflexivity.
Qed.

(** C10. On a node that carries an [enum], the union of the quoted
    values is synthesized when the type is exactly [string]; for any other
    or absent type the result is that of the node without its [enum]. *)
Theorem enum_only_for_string :
  forall (f : SchemaFields Schema) (values : list string),
    enum f = Some values ->
    (type f = Some (TypeName "string") ->
     jsonSchemaToTypeScript (Some (Node f)) = Js.join " | " (map quote values))
    /\ (type f <> Some (TypeName "string") ->
        jsonSchemaToTypeScript (Some (Node f))
        = jsonSchemaToTypeScript (Some (Node (withEnum None f)))).
Proof.
  intros f values He. split.
  - intros Ht. unfold jsonSchemaToTypeScript.
    rewrite (convertNode_string f Ht), He. reflexivity.
  - intros Ht. simpl.
    destruct (type f) as [ [ t | ts ] | ]; try reflexivity.
    destruct (t =? "string") eqn:Es; [ | reflexivity ].
    apply String.eqb_eq in Es. subst t. exfalso. apply Ht. reflexivity.
Qed.


(** The scenario of the specification: [path] is a required string and
    [content] an optional one; a key with a hyphen is quoted. *)
Example object_type_scenario :
  let stringNode := Node (withType (TypeName "string") emptyFields) in
  jsonSchemaToTypeScript
    (Some (Node (withRequired (Some ["path"])
                   (withProperties
                      (Some [("path", stringNode); ("content", stringNode);
                             ("content-type", stringNode)])
                      (withType (TypeName "object") emptyFields)))))
  = "{" ++ newline ++ "  path: string;" ++ newline ++ "  content?: string;"
      ++ newline ++ "  " ++ dq ++ "content-type" ++ dq ++ "?: string;"
      ++ newline ++ "}".
Proof.
  reflexivity.
Qed.

Lemma empty_properties_object_witness :
  jsonSchemaToTypeScript
    (Some (Node (withProperties (Some []) (withType (TypeName "object") emptyFields))))
  = "{}"
  /\ jsonSchemaToTypeScript (Some (Node (withType (TypeName "object") emptyFields)))
     = "Record<string, any>".
Proof.
  split.
  - apply (proj1 (empty_properties_object
                    (withProperties (Some []) (withType (TypeName "object") emptyFields))
                    eq_refl));
      reflexivity.
  - apply (proj2 (empty_properties_object
                    (withType (TypeName "object") emptyFields) eq_refl));
      reflexivity.
Defined.

Lemma enum_only_for_string_witness :
  jsonSchemaToTypeScript
    (Some (Node (withEnum (Some ["draft"; "published"])
                   (withType (TypeName "string") emptyFields))))
  = dq ++ "draft" ++ dq ++ " | " ++ dq ++ "published" ++ dq
  /\ jsonSchemaToTypeScript
       (Some (Node (withEnum (Some ["1"; "2"])
                      (withType (TypeName "number") emptyFields))))
     = "number".
Proof.
  split.
  - apply (proj1 (enum_only_for_string
                    (withEnum (Some ["draft"; "published"])
                       (withType (TypeName "string") emptyFields))
                    ["draft"; "published"] eq_refl)).
    reflexivity.
  - rewrite (proj2 (enum_only_for_string
                      (withEnum (Some ["1"; "2"])
                         (withType (TypeName "number") emptyFields))
                      ["1"; "2"] eq_refl)).
    + reflexivity.
    + discriminate.
Defined.

(** The expectations of the test suite on the converter. *)
Example converts_primitive_types :
  map (fun t => jsonSchemaToTypeScript (Some (Node (withType (TypeName t) emptyFields))))
      ["string"; "number"; "integer"; "boolean"; "null"]
  = ["string"; "number"; "number"; "boolean"; "null"].
Proof.
  reflexivity.
Qed.

Example converts_arrays :
  jsonSchemaToTypeScript
    (Some (Node (withItems (Some (Node (withType (TypeName "number") emptyFields)))
                   (withType (TypeName "array") emptyFields))))
  = "number[]".
Proof.
  reflexivity.
Qed.

Example converts_union_types :
  jsonSchemaToTypeScript
    (Some (Node (withType (TypeList ["string"; "number"]) emptyFields)))
  = "string | number"
  /\ jsonSchemaToTypeScript
       (Some (Node (withAnyOf
                      (Some [Node (withType (TypeName "string") emptyFields);
                             Node (withType (TypeName "number") emptyFields)])
                      emptyFields)))
     = "string | number".
Proof.
  split; reflexivity.
Qed.

Example handles_additional_properties :
  jsonSchemaToTypeScript
    (Some (Node (withAdditional
                   (AdditionalSchema (Node (withType (TypeName "number") emptyFields)))
                   (withProperties
                      (Some [("known", Node (withType (TypeName "string") emptyFields))])
                      (withType (TypeName "object") emptyFields)))))
  = "{" ++ newline ++ "  known?: string;" ++ newline
      ++ "  [key: string]: number;" ++ newline ++ "}".
Proof.
  reflexivity.
Qed.

(** ** Naming *)

Lemma isNameSeparator_isSeparator (c : ascii) :
  isNameSeparator c = true -> isSeparator c = true.
Proof.
  unfold isNameSeparator, isSeparator, Js.isWhitespace. intros H.
  destruct (Ascii.eqb c "-"); [reflexivity | ].
  destruct (Ascii.eqb c "_"); [reflexivity | ].
  simpl in H. rewrite H. simpl. apply orb_true_r.
Qed.

Lemma replaceSeparators_same (a b : string) :
  sameUpToSeparators a b ->
  forall afterRun : bool, replaceSeparators afterRun a = replaceSeparators afterRun b.
Proof.
  induction 1 as [ | c a b _ IH | c d a b Hc Hd _ IH
                   | c d a b Hc Hd _ IH | c d a b Hc Hd _ IH ];
    intros afterRun.
  - reflexivity.
  - simpl. destruct (isSeparator c); [ apply IH | rewrite IH; reflexivity ].
  - simpl.
    rewrite (isNameSeparator_isSeparator c Hc), (isNameSeparator_isSeparator d Hd).
    apply IH.
  - specialize (IH true). simpl in IH |- *.
    rewrite (isNameSeparator_isSeparator d Hd) in IH |- *.
    rewrite (isNameSeparator_isSeparator c Hc). exact IH.
  - specialize (IH true). simpl in IH |- *.
    rewrite (isNameSeparator_isSeparator c Hc) in IH |- *.
    rewrite (isNameSeparator_isSeparator d Hd). exact IH.
Qed.

Lemma pascalCase_same (a b : string) :
  sameUpToSeparators a b -> pascalCase a = pascalCase b.
Proof.
  intros H. unfold pascalCase. rewrite (replaceSeparators_same a b H). reflexivity.
Qed.

(** C4. Two operation names that differ only in their separator
    characters get the same generated identifier: the same PascalCase name
    with the suffix [Input], which is the name of the declarations of two
    operations so named. *)
Theorem separators_collide :
  forall a b : string,
    sameUpToSeparators a b ->
    pascalCase a ++ "Input" = pascalCase b ++ "Input"
    /\ (forall t1 t2 : Tool,
           tool_name t1 = a -> tool_name t2 = b ->
           iface_name (toolInterface t1) = iface_name (toolInterface t2)).
Proof.
  intros a b H. split.
  - rewrite (pascalCase_same a b H). reflexivity.
  - intros t1 t2 H1 H2. unfold toolInterface. cbn [iface_name].
    rewrite H1, H2, (pascalCase_same a b H). reflexivity.
Qed.

Lemma separators_collide_witness :
  sameUpToSeparators "create-page" "create_page"
  /\ pascalCase "create-page" ++ "Input" = "CreatePageInput"
  /\ pascalCase "create-page" ++ "Input" = pascalCase "create_page" ++ "Input".
Proof.
  assert (H : sameUpToSeparators "create-page" "create_page").
  { do 6 apply same_char. apply same_separator; [reflexivity | reflexivity | ].
    do 4 apply same_char. apply same_empty. }
  split; [exact H | ].
  split; [reflexivity | ].
  apply (proj1 (separators_collide "create-page" "create_page" H)).
Defined.

(** A longer run of separators changes nothing either. *)
Example separator_runs_collide :
  pascalCase "create - page" = "CreatePage"
  /\ pascalCase "create_page" = "CreatePage"
  /\ sameUpToSeparators "create - page" "create_page".
Proof.
  split; [ reflexivity | split; [ reflexivity | ] ].
  do 6 apply same_char.
  apply same_longer_left; [ reflexivity | reflexivity | ].
  apply same_longer_left; [ reflexivity | reflexivity | ].
  apply same_separator; [ reflexivity | reflexivity | ].
  do 4 apply same_char. apply same_empty.
Qed.

(** The names the test suite expects. *)
Example generated_names :
  pascalCase "test" ++ "Client" = "TestClient"
  /\ camelCase "create-item" = "createItem"
  /\ camelCase "generate-summary" ++ "Prompt" = "generateSummaryPrompt"
  /\ "get" ++ pascalCase "items" = "getItems"
  /\ iface_name (toolInterface (mkTool "get-status" (Some "Get system status") None))
     = "GetStatusInput".
Proof.
  repeat split; reflexivity.
Qed.

(** A prompt with a required argument [text] and an optional argument
    [tone] takes one parameter typed [{ text: string; tone?: string }]. *)
Example prompt_parameter_scenario :
  method_parameters
    (promptMethod
       (mkPrompt "generate-summary" None
          (Some [mkPromptArgument "text" (Some true); mkPromptArgument "tone" None])))
  = [mkParameter "args" "{ text: string; tone?: string }"].
Proof.
  reflexivity.
Qed.

(** ** Declarations *)




(** ** The unwrap helper *)

Section Unwrap.

Import Value Runtime.

(** C3, as stated, fails: the result below has its error flag clear and
    one content item, and the helper does not return that item: it throws
    a third error. *)
Lemma first_item_not_returned :
  let result := mkCallToolResult (JsBoolean false) (JsArray [JsString "done"]) in
  ~ signalsError result
  /\ contentItems result = [JsString "done"]
  /\ handleToolResult result "echo" <> OperationFailed "echo" "Tool execution failed"
  /\ handleToolResult result "echo" <> EmptyResult "echo"
  /\ handleToolResult result "echo" <> Returned (JsString "done")
  /\ handleToolResult result "echo"
     = Thrown "Tool 'echo' returned invalid content structure".
Proof.
  cbv zeta. unfold signalsError. simpl.
  repeat split; try discriminate; reflexivity.
Qed.

(** C3, amended. The helper fails with [OperationFailed] when the
    result signals an error state; otherwise it fails with [EmptyResult]
    when the result carries no content items; otherwise it returns the
    first content item when that item is an object or an array, and
    fails with an invalid-content error when it is not. *)
Theorem handleToolResult_contract :
  forall (result : CallToolResult) (toolName : string),
    (signalsError result ->
     exists errorMessage : string,
       handleToolResult result toolName = OperationFailed toolName errorMessage)
    /\ (~ signalsError result ->
        contentItems result = [] ->
        handleToolResult result toolName = EmptyResult toolName)
    /\ (~ signalsError result ->
        forall item rest,
          contentItems result = item :: rest ->
          (isObjectItem item = true ->
           handleToolResult result toolName = Returned item)
          /\ (isObjectItem item = false ->
              handleToolResult result toolName = InvalidContent toolName)).
Proof.
  intros [flag items] toolName.
  unfold signalsError, contentItems, handleToolResult, OperationFailed,
    EmptyResult, InvalidContent, isObjectItem.
  cbn [isError content].
  split; [ | split ].
  - intros Hflag. rewrite Hflag. eexists. reflexivity.
  - intros Hflag Hitems.
    destruct (truthy flag); [ exfalso; apply Hflag; reflexivity | ].
    destruct items as [ | | b | z | s | elements | entries ];
      try subst elements;
      cbn [truthy isArray negb orb]; rewrite ?orb_true_r; reflexivity.
  - intros Hflag item rest Hitems.
    destruct (truthy flag); [ exfalso; apply Hflag; reflexivity | ].
    destruct items as [ | | b | z | s | elements | entries ];
      try discriminate.
    subst elements. cbn [truthy isArray negb orb first].
    split; intros Hitem.
    + apply andb_prop in Hitem. destruct Hitem as [H1 H2].
      rewrite H1, H2. reflexivity.
    + apply andb_false_iff in Hitem. destruct Hitem as [H | H]; rewrite H.
      * reflexivity.
      * rewrite orb_true_r. reflexivity.
Qed.

Lemma handleToolResult_contract_witness :
  let item := JsObject [("type", JsString "text"); ("text", JsString "done")] in
  handleToolResult (mkCallToolResult JsUndefined (JsArray [item])) "echo"
  = Returned item.
Proof.
  cbv zeta.
  pose proof
    (handleToolResult_contract
       (mkCallToolResult JsUndefined
          (JsArray [JsObject [("type", JsString "text"); ("text", JsString "done")]]))
       "echo") as H.
  destruct H as [_ [_ H]].
  refine (proj1 (H _ _ [] eq_refl) eq_refl).
  unfold signalsError. discriminate.
Defined.

End Unwrap.

(** ** The generator monad *)

Lemma bind_run {A B : Type} (m : Gen A) (k : A -> Gen B) (now : Clock) (n : nat) :
  bind m k now n
  = (fst (fst (k (fst (fst (m now n))) now (snd (m now n)))),
     snd (fst (m now n))
     +++ snd (fst (k (fst (fst (m now n))) now (snd (m now n)))),
     snd (k (fst (fst (m now n))) now (snd (m now n)))).
Proof.
  unfold bind. destruct (m now n) as [[a out1] n1]. simpl.
  destruct (k a now n1) as [[b out2] n2]. reflexivity.
Qed.

Lemma emitted_bind {A B : Type} (m : Gen A) (k : A -> Gen B) (now : Clock) (n : nat) :
  emitted (bind m k) now n
  = emitted m now n +++ emitted (k (fst (fst (m now n)))) now (readings m now n).
Proof.
  unfold emitted, readings. rewrite bind_run. reflexivity.
Qed.


Lemma emitted_forEach_cons {A : Type} (body : A -> Gen unit) (x : A)
    (rest : list A) (now : Clock) (n : nat) :
  emitted (forEach body (x :: rest)) now n
  = emitted (body x) now n
    +++ emitted (forEach body rest) now (readings (body x) now n).
Proof.
  simpl forEach. rewrite emitted_bind. reflexivity.
Qed.



(** ** The per-server statements *)

Lemma emitted_interfaces (result : IntrospectionResult) (now : Clock) (n : nat) :
  forEach (fun tool =>
             match tool_inputSchema tool with
             | Some _ => generateToolInterface tool ;; ret tt
             | None => ret tt
             end)
          (tools result) now n
  = (tt, toolInterfaces result, n).
Proof.
  unfold toolInterfaces.
  induction (tools result) as [ | tool rest IH ].
  - reflexivity.
  - cbn [forEach flat_map]. rewrite bind_run.
    destruct (tool_inputSchema tool);
      cbn [generateToolInterface bind ret addInterface emit fst snd];
      rewrite IH; reflexivity.
Qed.

(** A failed server: a comment and an empty line, whatever the clock. *)
Lemma generateServer_failed (options : CodegenOptions) (serverName : string)
    (result : IntrospectionResult) (now : Clock) (n : nat) :
  Js.truthy (error result) = true ->
  generateServer options (serverName, result) now n
  = (tt,
     [StText (errorComment serverName (Js.orElse (error result) ""));
      StText ""],
     n).
Proof.
  intros He. unfold generateServer. rewrite He. reflexivity.
Qed.

(** The singleton statements of a server. *)
Lemma emitted_addSingleton (serverName : string) (classDecl : ClassDeclaration)
    (now : Clock) (n : nat) :
  emitted (addSingleton serverName classDecl) now n
  = [StText "";
     StText ("// Singleton instance for " ++ serverName);
     StText ("let _" ++ camelCase serverName ++ ": " ++ class_name classDecl
               ++ " | undefined;");
     StText "";
     StFunction
       (mkFunction ("get" ++ pascalCase serverName ++ "Client") true
          [mkParameter "connection" "McpConnection"]
          (class_name classDecl)
          [ "if (!_" ++ camelCase serverName ++ ") {";
            "  _" ++ camelCase serverName ++ " = new " ++ class_name classDecl
              ++ "(connection);";
            "}";
            "return _" ++ camelCase serverName ++ ";" ])].
Proof.
  reflexivity.
Qed.

(** An error-free server: the declarations of its operations, its class,
    and the singleton statements unless [treeShakable] is [false]; the clock
    is read once. *)
Lemma generateServer_ok (options : CodegenOptions) (serverName : string)
    (result : IntrospectionResult) (now : Clock) (n : nat) :
  Js.truthy (error result) = false ->
  emitted (generateServer options (serverName, result)) now n
  = toolInterfaces result
    +++ [StClass (clientClass (now n) serverName result)]
    +++ match treeShakable options with
        | Some false => []
        | _ => emitted (addSingleton serverName
                          (clientClass (now n) serverName result)) now (S n)
        end
  /\ readings (generateServer options (serverName, result)) now n = S n.
Proof.
  intros He. unfold generateServer. rewrite He.
  unfold emitted, readings. rewrite bind_run, emitted_interfaces.
  cbn [fst snd]. rewrite bind_run.
  unfold generateClientClass. rewrite !bind_run. cbn [fst snd toISOString ret addClass emit].
  destruct (treeShakable options) as [ [ | ] | ]; split; reflexivity.
Qed.

(** ** The class of a server *)

Lemma fold_addMethod (ms : list MethodDeclaration) (c : ClassDeclaration) :
  fold_left addMethod ms c
  = mkClass (class_name c) (class_isExported c) (class_docs c)
      (class_properties c) (class_constructors c) (class_methods c +++ ms).
Proof.
  revert c. induction ms as [ | m ms IH ]; intros c.
  - destruct c. simpl. rewrite app_nil_r. reflexivity.
  - simpl. rewrite IH. unfold addMethod. cbn [class_name class_isExported
      class_docs class_properties class_constructors class_methods].
    rewrite <- app_assoc. reflexivity.
Qed.

Lemma fold_generateToolMethod (ts : list Tool) (c : ClassDeclaration) :
  fold_left generateToolMethod ts c = fold_left addMethod (map toolMethod ts) c.
Proof.
  revert c. induction ts as [ | t ts IH ]; intros c; [ reflexivity | ].
  simpl. apply IH.
Qed.

Lemma generatePromptMethods_fold (ps : list Prompt) (c : ClassDeclaration) :
  generatePromptMethods c ps = fold_left addMethod (map promptMethod ps) c.
Proof.
  unfold generatePromptMethods.
  revert c. induction ps as [ | p ps IH ]; intros c; [ reflexivity | ].
  simpl. apply IH.
Qed.

(** The class of a server: its name, its documentation with the clock
    reading, the connection property, the constructor and the methods. *)
Lemma clientClass_shape (generated serverName : string)
    (result : IntrospectionResult) :
  clientClass generated serverName result
  = mkClass (pascalCase serverName ++ "Client") true
      [mkJsDoc ("MCP client for " ++ serverName ++ " server")
         [("generated", generated)]]
      [mkProperty "connection" "McpConnection" Private]
      [mkConstructor [mkParameter "connection" "McpConnection"]
         ["this.connection = connection;"]]
      (classMethods result).
Proof.
  unfold clientClass, classMethods, generateResourceMethods.
  rewrite fold_generateToolMethod.
  destruct (resources result) as [ | r rs ]; destruct (prompts result) as [ | p ps ];
    rewrite ?generatePromptMethods_fold, ?fold_addMethod;
    cbn [addMethod class_name class_isExported class_docs class_properties
           class_constructors class_methods];
    rewrite ?fold_addMethod;
    cbn [addMethod class_name class_isExported class_docs class_properties
           class_constructors class_methods app map];
    rewrite ?app_nil_r, <- ?app_assoc; reflexivity.
Qed.

(** ** The assembled module *)

Lemma generateSourceFile_sections (now : Clock)
    (servers : list (string * IntrospectionResult)) (options : CodegenOptions) :
  generateSourceFile now servers options
  = emitted addPreamble now 0
    +++ emitted (forEach (generateServer options) servers) now 1.
Proof.
  unfold generateSourceFile, buildSourceFile. rewrite emitted_bind. reflexivity.
Qed.


Lemma getFullText_app (a b : SourceFile) :
  getFullText (a +++ b) = getFullText a +++ getFullText b.
Proof.
  unfold getFullText. apply flat_map_app.
Qed.






(** ** Determinism up to the clock *)

Lemma sameButTimestamp_refl (l : string) : sameButTimestamp l l.
Proof.
  left. reflexivity.
Qed.

Lemma differingLines_refl (text : list string) : differingLines text text = 0.
Proof.
  induction text as [ | l text IH ]; simpl; [ reflexivity | ].
  rewrite String.eqb_refl, IH. reflexivity.
Qed.

Lemma agreeUpTo_refl (text : list string) : agreeUpTo 0 text text.
Proof.
  split.
  - induction text; constructor; [ apply sameButTimestamp_refl | assumption ].
  - rewrite differingLines_refl. apply Nat.le_refl.
Qed.

Lemma differingLines_app (a b c d : list string) :
  List.length a = List.length c ->
  differingLines (a +++ b) (c +++ d) = differingLines a c + differingLines b d.
Proof.
  revert c. induction a as [ | x a IH ]; intros [ | y c ] Hlen;
    try discriminate Hlen.
  - reflexivity.
  - simpl. rewrite IH; [ | injection Hlen; trivial ].
    rewrite Nat.add_assoc. reflexivity.
Qed.

Lemma agreeUpTo_app (j k : nat) (a b c d : list string) :
  agreeUpTo j a c -> agreeUpTo k b d -> agreeUpTo (j + k) (a +++ b) (c +++ d).
Proof.
  intros [Hac Hj] [Hbd Hk]. split.
  - apply Forall2_app; assumption.
  - rewrite differingLines_app; [ | exact (Forall2_length Hac) ].
    apply Nat.add_le_mono; assumption.
Qed.

(** One line that carries a timestamp. *)
Lemma agreeUpTo_timestamp (l1 l2 : string) :
  sameButTimestamp l1 l2 -> agreeUpTo 1 [l1] [l2].
Proof.
  intros H. split.
  - constructor; [ exact H | constructor ].
  - simpl. destruct (l1 =? l2); simpl; lia.
Qed.

(** The header and the helpers under two clocks: one line may differ. *)
Lemma preamble_agree (now1 now2 : Clock) :
  agreeUpTo 1 (getFullText (emitted addPreamble now1 0))
    (getFullText (emitted addPreamble now2 0)).
Proof.
  change (getFullText (emitted addPreamble now1 0))
    with (["/* Generated MCP Client SDK */"]
          +++ ["/* Generated at: " ++ now1 0 ++ " */"]
          +++ getFullText (skipn 2 (emitted addPreamble now1 0))).
  change (getFullText (emitted addPreamble now2 0))
    with (["/* Generated MCP Client SDK */"]
          +++ ["/* Generated at: " ++ now2 0 ++ " */"]
          +++ getFullText (skipn 2 (emitted addPreamble now1 0))).
  apply (agreeUpTo_app 0 1); [ apply agreeUpTo_refl | ].
  apply (agreeUpTo_app 1 0); [ | apply agreeUpTo_refl ].
  apply agreeUpTo_timestamp. right. left. exists (now1 0), (now2 0).
  split; reflexivity.
Qed.

(** The class of a server under two clocks: one line may differ. *)
Lemma class_agree (t1 t2 serverName : string) (result : IntrospectionResult) :
  agreeUpTo 1 (printClass (clientClass t1 serverName result))
    (printClass (clientClass t2 serverName result)).
Proof.
  rewrite !clientClass_shape.
  unfold printClass.
  cbn [class_docs class_name class_isExported class_properties
         class_constructors class_methods].
  apply (agreeUpTo_app 1 0); [ | apply agreeUpTo_refl ].
  change (printDocs [mkJsDoc ("MCP client for " ++ serverName ++ " server")
                       [("generated", t1)]])
    with (["/**"; " * MCP client for " ++ serverName ++ " server"]
          +++ [" * @generated " ++ t1] +++ [" */"]).
  change (printDocs [mkJsDoc ("MCP client for " ++ serverName ++ " server")
                       [("generated", t2)]])
    with (["/**"; " * MCP client for " ++ serverName ++ " server"]
          +++ [" * @generated " ++ t2] +++ [" */"]).
  apply (agreeUpTo_app 0 1); [ apply agreeUpTo_refl | ].
  apply (agreeUpTo_app 1 0); [ | apply agreeUpTo_refl ].
  apply agreeUpTo_timestamp. right. right. exists t1, t2. split; reflexivity.
Qed.

Lemma class_name_clientClass (t serverName : string) (result : IntrospectionResult) :
  class_name (clientClass t serverName result) = pascalCase serverName ++ "Client".
Proof.
  rewrite clientClass_shape. reflexivity.
Qed.

(** The statements of one server under two clocks. *)
Lemma server_agree (options : CodegenOptions) (entry : string * IntrospectionResult)
    (now1 now2 : Clock) (n1 n2 : nat) :
  agreeUpTo (if Js.truthy (error (snd entry)) then 0 else 1)
    (getFullText (emitted (generateServer options entry) now1 n1))
    (getFullText (emitted (generateServer options entry) now2 n2)).
Proof.
  destruct entry as [serverName result]. cbn [snd].
  destruct (Js.truthy (error result)) eqn:He.
  - unfold emitted. rewrite !(generateServer_failed _ _ _ _ _ He).
    apply agreeUpTo_refl.
  - rewrite (proj1 (generateServer_ok options serverName result now1 n1 He)).
    rewrite (proj1 (generateServer_ok options serverName result now2 n2 He)).
    rewrite !getFullText_app.
    apply (agreeUpTo_app 0 1); [ apply agreeUpTo_refl | ].
    apply (agreeUpTo_app 1 0).
    + cbn [getFullText flat_map printStatement]. rewrite !app_nil_r.
      apply class_agree.
    + destruct (treeShakable options) as [ [ | ] | ];
        rewrite ?emitted_addSingleton, ?class_name_clientClass;
        apply agreeUpTo_refl.
Qed.

Lemma servers_agree (options : CodegenOptions)
    (servers : list (string * IntrospectionResult)) (now1 now2 : Clock) :
  forall n1 n2 : nat,
    agreeUpTo (generatedClasses servers)
      (getFullText (emitted (forEach (generateServer options) servers) now1 n1))
      (getFullText (emitted (forEach (generateServer options) servers) now2 n2)).
Proof.
  induction servers as [ | entry rest IH ]; intros n1 n2.
  - apply agreeUpTo_refl.
  - rewrite !emitted_forEach_cons, !getFullText_app.
    unfold generatedClasses. cbn [filter].
    pose proof (server_agree options entry now1 now2 n1 n2) as Hentry.
    destruct (Js.truthy (error (snd entry))); cbn [negb List.length].
    + apply (agreeUpTo_app 0 _); [ exact Hentry | apply IH ].
    + apply (agreeUpTo_app 1 _); [ exact Hentry | apply IH ].
Qed.

(** C1, as stated, fails: for one error-free server, two runs on the same
    map and options whose clocks differ produce texts that differ in two
    lines, the header line and the [@generated] line of the class. *)
Lemma two_timestamp_lines :
  let servers := [("test", mkIntrospectionResult [] [] [] None)] in
  let text1 :=
    generateClientFile (fun _ => "2025-08-16T23:15:37.436Z") servers defaultOptions in
  let text2 :=
    generateClientFile (fun _ => "2025-08-16T23:15:38.436Z") servers defaultOptions in
  differingLines text1 text2 = 2
  /\ hasLine text1 "/* Generated at: 2025-08-16T23:15:37.436Z */" = true
  /\ hasLine text2 "/* Generated at: 2025-08-16T23:15:37.436Z */" = false
  /\ hasLine text1 " * @generated 2025-08-16T23:15:37.436Z" = true
  /\ hasLine text2 " * @generated 2025-08-16T23:15:37.436Z" = false.
Proof.
  cbv zeta. repeat split; vm_compute; reflexivity.
Qed.

(** C1, amended. Two runs of the assembler on the same server map and
    options produce texts with the same lines, except for the timestamp
    lines: the header line and the [@generated] line of each generated
    class, that is at most one line more than there are error-free
    servers. *)
Theorem output_same_but_timestamps :
  forall (now1 now2 : Clock) (servers : list (string * IntrospectionResult))
         (options : CodegenOptions),
    Forall2 sameButTimestamp
      (generateClientFile now1 servers options)
      (generateClientFile now2 servers options)
    /\ differingLines (generateClientFile now1 servers options)
         (generateClientFile now2 servers options)
       <= 1 + generatedClasses servers.
Proof.
  intros now1 now2 servers options.
  unfold generateClientFile. rewrite !generateSourceFile_sections, !getFullText_app.
  apply (agreeUpTo_app 1 (generatedClasses servers)).
  - apply preamble_agree.
  - apply servers_agree.
Qed.

(** * Further properties *)

(** ** utils.ts: the shape of generated names *)

Lemma toUpperCase_keeps_non_separator (c : ascii) :
  isSeparator c = false -> isSeparator (Js.toUpperCase c) = false.
Proof.
  destruct c as [[] [] [] [] [] [] [] []]; intros H;
    solve [ reflexivity | discriminate H ].
Qed.

Lemma toLowerCase_keeps_non_separator (c : ascii) :
  isSeparator c = false -> isSeparator (Js.toLowerCase c) = false.
Proof.
  destruct c as [[] [] [] [] [] [] [] []]; intros H;
    solve [ reflexivity | discriminate H ].
Qed.

Lemma toUpperCase_idempotent (c : ascii) :
  Js.toUpperCase (Js.toUpperCase c) = Js.toUpperCase c.
Proof.
  destruct c as [[] [] [] [] [] [] [] []]; reflexivity.
Qed.

Lemma toLowerCase_idempotent (c : ascii) :
  Js.toLowerCase (Js.toLowerCase c) = Js.toLowerCase c.
Proof.
  destruct c as [[] [] [] [] [] [] [] []]; reflexivity.
Qed.



Lemma lineTerminator_isSeparator (c : ascii) :
  isSeparator c = false -> isLineTerminator c = false.
Proof.
  destruct c as [[] [] [] [] [] [] [] []]; intros H;
    solve [ reflexivity | discriminate H ].
Qed.

Lemma replaceSeparators_hasNoSeparator (afterRun : bool) (str : string) :
  hasNoSeparator (replaceSeparators afterRun str) = true.
Proof.
  revert afterRun. induction str as [ | c rest IH ]; intros afterRun; simpl.
  - reflexivity.
  - destruct (isSeparator c) eqn:Hc; [ apply IH | ].
    simpl. rewrite IH, andb_true_r.
    destruct afterRun.
    + rewrite (toUpperCase_keeps_non_separator c Hc). reflexivity.
    + rewrite Hc. reflexivity.
Qed.

(** On a string without separators, [replace(/^(.)/, ...)] rewrites the first
    character, whatever it is. *)
Lemma replaceFirst_hasNoSeparator (f : ascii -> ascii) (str : string) :
  hasNoSeparator str = true ->
  replaceFirst f str
  = match str with
    | EmptyString => EmptyString
    | String c rest => String (f c) rest
    end.
Proof.
  destruct str as [ | c rest ]; intros H; [ reflexivity | ].
  simpl in H. apply andb_prop in H. destruct H as [Hc _].
  apply negb_true_iff in Hc.
  unfold replaceFirst. rewrite (lineTerminator_isSeparator c Hc). reflexivity.
Qed.

Lemma replaceSeparators_identity (str : string) :
  hasNoSeparator str = true -> replaceSeparators false str = str.
Proof.
  induction str as [ | c rest IH ]; intros H; [ reflexivity | ].
  simpl in H. apply andb_prop in H. destruct H as [Hc Hrest].
  apply negb_true_iff in Hc. simpl. rewrite Hc, (IH Hrest). reflexivity.
Qed.

Lemma replaceFirst_keeps_hasNoSeparator (f : ascii -> ascii) (str : string) :
  (forall c, isSeparator c = false -> isSeparator (f c) = false) ->
  hasNoSeparator str = true ->
  hasNoSeparator (replaceFirst f str) = true.
Proof.
  intros Hf H. rewrite (replaceFirst_hasNoSeparator f str H).
  destruct str as [ | c rest ]; [ reflexivity | ].
  simpl in H |- *. apply andb_prop in H. destruct H as [Hc Hrest].
  apply negb_true_iff in Hc. rewrite (Hf c Hc), Hrest. reflexivity.
Qed.

(** X1. The names [pascalCase] and [camelCase] return hold no hyphen, no
    underscore and no whitespace. *)
Theorem case_conversion_removes_separators :
  forall str : string,
    hasNoSeparator (pascalCase str) = true
    /\ hasNoSeparator (camelCase str) = true.
Proof.
  intros str. unfold pascalCase, camelCase. split.
  - apply replaceFirst_keeps_hasNoSeparator;
      [ exact toUpperCase_keeps_non_separator
      | apply replaceSeparators_hasNoSeparator ].
  - apply replaceFirst_keeps_hasNoSeparator;
      [ exact toLowerCase_keeps_non_separator
      | apply replaceSeparators_hasNoSeparator ].
Qed.

Lemma pascalCase_of_clean (str : string) :
  hasNoSeparator str = true ->
  pascalCase str
  = match str with
    | EmptyString => EmptyString
    | String c rest => String (Js.toUpperCase c) rest
    end.
Proof.
  intros H. unfold pascalCase. rewrite (replaceSeparators_identity str H).
  apply replaceFirst_hasNoSeparator. exact H.
Qed.

Lemma camelCase_of_clean (str : string) :
  hasNoSeparator str = true ->
  camelCase str
  = match str with
    | EmptyString => EmptyString
    | String c rest => String (Js.toLowerCase c) rest
    end.
Proof.
  intros H. unfold camelCase. rewrite (replaceSeparators_identity str H).
  apply replaceFirst_hasNoSeparator. exact H.
Qed.

Lemma pascalCase_hasNoSeparator (str : string) :
  hasNoSeparator (pascalCase str) = true.
Proof.
  unfold pascalCase. apply replaceFirst_keeps_hasNoSeparator;
    [ exact toUpperCase_keeps_non_separator
    | apply replaceSeparators_hasNoSeparator ].
Qed.

Lemma camelCase_hasNoSeparator (str : string) :
  hasNoSeparator (camelCase str) = true.
Proof.
  unfold camelCase. apply replaceFirst_keeps_hasNoSeparator;
    [ exact toLowerCase_keeps_non_separator
    | apply replaceSeparators_hasNoSeparator ].
Qed.

Lemma pascalCase_unfold (str : string) :
  pascalCase str
  = match replaceSeparators false str with
    | EmptyString => EmptyString
    | String c rest => String (Js.toUpperCase c) rest
    end.
Proof.
  unfold pascalCase. apply replaceFirst_hasNoSeparator.
  apply replaceSeparators_hasNoSeparator.
Qed.

Lemma camelCase_unfold (str : string) :
  camelCase str
  = match replaceSeparators false str with
    | EmptyString => EmptyString
    | String c rest => String (Js.toLowerCase c) rest
    end.
Proof.
  unfold camelCase. apply replaceFirst_hasNoSeparator.
  apply replaceSeparators_hasNoSeparator.
Qed.

(** X2. Converting a name that is already converted changes nothing:
    [pascalCase] and [camelCase] are idempotent. *)
Theorem case_conversion_idempotent :
  forall str : string,
    pascalCase (pascalCase str) = pascalCase str
    /\ camelCase (camelCase str) = camelCase str.
Proof.
  intros str. split.
  - rewrite (pascalCase_of_clean _ (pascalCase_hasNoSeparator str)).
    rewrite pascalCase_unfold.
    destruct (replaceSeparators false str) as [ | c rest ]; [ reflexivity | ].
    rewrite toUpperCase_idempotent. reflexivity.
  - rewrite (camelCase_of_clean _ (camelCase_hasNoSeparator str)).
    rewrite camelCase_unfold.
    destruct (replaceSeparators false str) as [ | c rest ]; [ reflexivity | ].
    rewrite toLowerCase_idempotent. reflexivity.
Qed.


(** X4. Two operations whose names differ only in their separator characters
    get methods of the same name, and, when both have an input schema, the
    same parameter type; each method still calls its operation by its own
    name. *)
Theorem method_names_collide :
  forall t1 t2 : Tool,
    sameUpToSeparators (tool_name t1) (tool_name t2) ->
    method_name (toolMethod t1) = method_name (toolMethod t2)
    /\ (tool_inputSchema t1 <> None -> tool_inputSchema t2 <> None ->
        method_parameters (toolMethod t1) = method_parameters (toolMethod t2))
    /\ In ("  name: " ++ dq ++ tool_name t1 ++ dq ++ ",")
          (method_statements (toolMethod t1))
    /\ In ("  name: " ++ dq ++ tool_name t2 ++ dq ++ ",")
          (method_statements (toolMethod t2)).
Proof.
  intros t1 t2 H. unfold toolMethod. cbn [method_name method_parameters method_statements].
  split; [ | split; [ | split ] ].
  - unfold camelCase. rewrite (replaceSeparators_same _ _ H). reflexivity.
  - intros H1 H2.
    destruct (tool_inputSchema t1); [ | contradiction ].
    destruct (tool_inputSchema t2); [ | contradiction ].
    rewrite (pascalCase_same _ _ H). reflexivity.
  - right. left. reflexivity.
  - right. left. reflexivity.
Qed.

Lemma method_names_collide_witness :
  method_name (toolMethod (mkTool "create-page" None None)) = "createPage"
  /\ method_name (toolMethod (mkTool "create-page" None None))
     = method_name (toolMethod (mkTool "create_page" None None)).
Proof.
  split; [ reflexivity | ].
  apply (proj1 (method_names_collide
                  (mkTool "create-page" None None)
                  (mkTool "create_page" None None)
                  ltac:(do 6 apply same_char;
                        apply same_separator; [ reflexivity | reflexivity | ];
                        do 4 apply same_char; apply same_empty))).
Defined.

(** ** schema-converter.ts: edge cases *)

(** X5. A schema that is no object (a number, a string, a boolean, an array,
    [null], [undefined]) converts to [any]; the converter does not throw on
    it. *)
Theorem non_object_schema_is_any :
  forall (fuel : nat) (schema : Value.JsValue),
    (forall entries, schema <> Value.JsObject entries) ->
    Dynamic.jsonSchemaToTypeScript (S fuel) schema = Some (Dynamic.Normal "any").
Proof.
  intros fuel schema H.
  destruct schema as [ | | b | z | s | elements | entries ].
  - reflexivity.
  - reflexivity.
  - destruct b; reflexivity.
  - cbn. destruct (Z.eqb z 0); reflexivity.
  - destruct s; reflexivity.
  - reflexivity.
  - exfalso. apply (H entries). reflexivity.
Qed.

Lemma non_object_schema_is_any_witness :
  Dynamic.jsonSchemaToTypeScript 1
    (Value.JsArray [Value.JsObject [("type", Value.JsString "string")]])
  = Some (Dynamic.Normal "any").
Proof.
  apply (non_object_schema_is_any 0). intros entries. discriminate.
Defined.

(** X6. On a node whose [type] is one of the names the converter has a case
    for, the fields [anyOf], [oneOf] and [allOf] are not read: the result is
    that of the node without them. *)
Theorem recognized_type_ignores_combinators :
  forall (f : SchemaFields Schema) (t : string),
    type f = Some (TypeName t) ->
    In t knownTypeNames ->
    jsonSchemaToTypeScript (Some (Node f))
    = jsonSchemaToTypeScript (Some (Node (withoutCombinators f))).
Proof.
  intros f t Ht Hin. unfold jsonSchemaToTypeScript.
  cbn [convertNode withoutCombinators type enum items properties required
         additionalProperties anyOf oneOf allOf].
  rewrite Ht.
  simpl in Hin.
  destruct Hin as [ <- | [ <- | [ <- | [ <- | [ <- | [ <- | [ <- | [] ] ] ] ] ] ] ];
    reflexivity.
Qed.

Lemma recognized_type_ignores_combinators_witness :
  let stringNode := Node (withType (TypeName "string") emptyFields) in
  jsonSchemaToTypeScript
    (Some (Node (withAnyOf (Some [stringNode])
                   (withType (TypeName "number") emptyFields))))
  = "number".
Proof.
  cbv zeta.
  rewrite (recognized_type_ignores_combinators
             (withAnyOf (Some [Node (withType (TypeName "string") emptyFields)])
                (withType (TypeName "number") emptyFields))
             "number" eq_refl).
  - reflexivity.
  - right. left. reflexivity.
Defined.

(** X7. On a node whose [type] is not recognized and that has an [anyOf],
    the union of the [anyOf] branches is synthesized, and [oneOf] and
    [allOf] are not read. *)
Theorem anyOf_shadows_oneOf_allOf :
  forall (f : SchemaFields Schema) (branches : list Schema)
         (one all : option (list Schema)),
    typeUnrecognized f = true ->
    anyOf f = Some branches ->
    jsonSchemaToTypeScript (Some (Node (withOneOfAllOf one all f)))
    = Js.join " | " (map (fun s => jsonSchemaToTypeScript (Some s)) branches).
Proof.
  intros f branches one all Hty Hany. unfold jsonSchemaToTypeScript.
  cbn [convertNode withOneOfAllOf type enum items properties required
         additionalProperties anyOf oneOf allOf].
  rewrite Hany. unfold typeUnrecognized in Hty.
  destruct (type f) as [ [ t | ts ] | ]; try discriminate; try reflexivity.
  simpl in Hty.
  destruct (t =? "string"); [discriminate | ].
  destruct (t =? "number"); [discriminate | ].
  destruct (t =? "integer"); [discriminate | ].
  destruct (t =? "boolean"); [discriminate | ].
  destruct (t =? "null"); [discriminate | ].
  destruct (t =? "array"); [discriminate | ].
  destruct (t =? "object"); [discriminate | ].
  reflexivity.
Qed.

Lemma anyOf_shadows_oneOf_allOf_witness :
  let stringNode := Node (withType (TypeName "string") emptyFields) in
  let numberNode := Node (withType (TypeName "number") emptyFields) in
  jsonSchemaToTypeScript
    (Some (Node (withOneOfAllOf None (Some [numberNode])
                   (withAnyOf (Some [stringNode]) emptyFields))))
  = "string".
Proof.
  cbv zeta.
  rewrite (anyOf_shadows_oneOf_allOf
             (withAnyOf (Some [Node (withType (TypeName "string") emptyFields)])
                emptyFields)
             [Node (withType (TypeName "string") emptyFields)]
             None (Some [Node (withType (TypeName "number") emptyFields)])
             eq_refl eq_refl).
  reflexivity.
Defined.

(** ** class-generator.ts: the methods of a class *)









(** X11. A prompt method takes no parameter when the prompt declares no
    argument (an absent or an empty list); otherwise it takes one parameter
    [args] whose type lists the arguments in order, each a string,
    optional unless marked required, and it passes [args] on. *)
Theorem prompt_method_parameters :
  forall prompt : Prompt,
    (Js.orElse (prompt_arguments prompt) [] = [] ->
     method_parameters (promptMethod prompt) = []
     /\ In "  arguments: {}," (method_statements (promptMethod prompt)))
    /\ (Js.orElse (prompt_arguments prompt) [] <> [] ->
        method_parameters (promptMethod prompt)
        = [mkParameter "args"
             ("{ " ++ Js.join "; "
                        (map argumentText (Js.orElse (prompt_arguments prompt) []))
                   ++ " }")]
        /\ In "  arguments: args," (method_statements (promptMethod prompt))).
Proof.
  intros prompt. unfold promptMethod.
  cbn [method_parameters method_statements].
  destruct (Js.orElse (prompt_arguments prompt) []) as [ | arg args ].
  - split; [ | intros H; contradiction ].
    intros _. split; [ reflexivity | ]. right. right. left. reflexivity.
  - split; [ intros H; discriminate H | ].
    intros _. split; [ reflexivity | ]. right. right. left. reflexivity.
Qed.

Lemma prompt_method_parameters_witness :
  method_parameters
    (promptMethod (mkPrompt "generate-summary" None (Some [])))
  = [].
Proof.
  apply (proj1 (prompt_method_parameters
                  (mkPrompt "generate-summary" None (Some [])))).
  reflexivity.
Defined.

(** ** file-builder.ts: the resource helper *)

(** X12. The emitted helper [handleResourceResult] fails with an
    empty-contents error, which names the locator, when the result has no
    entry ([contents] absent, no array, or empty); otherwise it returns the
    first entry, whatever that entry is: unlike the tool helper it does not
    ask for an object. *)
Theorem handleResourceResult_contract :
  forall (result : Runtime.ReadResourceResult) (resourceUri : string),
    (resourceContents result = [] ->
     Runtime.handleResourceResult result resourceUri
     = Runtime.Thrown ("Resource '" ++ resourceUri ++ "' returned empty contents"))
    /\ (forall item rest,
           resourceContents result = item :: rest ->
           Runtime.handleResourceResult result resourceUri
           = Runtime.Returned item).
Proof.
  intros [contents] resourceUri.
  unfold resourceContents, Runtime.handleResourceResult.
  cbn [Runtime.contents].
  split.
  - intros H.
    destruct contents as [ | | b | z | s | elements | entries ];
      try subst elements;
      cbn [Value.truthy Value.isArray negb orb]; rewrite ?orb_true_r; reflexivity.
  - intros item rest H.
    destruct contents as [ | | b | z | s | elements | entries ];
      try discriminate H.
    subst elements. reflexivity.
Qed.

Lemma handleResourceResult_contract_witness :
  Runtime.handleResourceResult
    (Runtime.mkReadResourceResult (Value.JsArray [Value.JsString "text"]))
    "resource://items"
  = Runtime.Returned (Value.JsString "text")
  /\ Runtime.handleResourceResult
       (Runtime.mkReadResourceResult (Value.JsArray []))
       "resource://items"
     = Runtime.Thrown "Resource 'resource://items' returned empty contents".
Proof.
  split.
  - apply (proj2 (handleResourceResult_contract
                    (Runtime.mkReadResourceResult
                       (Value.JsArray [Value.JsString "text"]))
                    "resource://items")
             (Value.JsString "text") []).
    reflexivity.
  - apply (proj1 (handleResourceResult_contract
                    (Runtime.mkReadResourceResult (Value.JsArray []))
                    "resource://items")).
    reflexivity.
Defined.

(** ** file-builder.ts: the module as a whole *)






Section Names.

Variable X : Type.
Variable pick : Statement -> list X.
Variable perServer : string * IntrospectionResult -> list X.
Variable options : CodegenOptions.
Variable now : Clock.

Hypothesis pick_server :
  forall (entry : string * IntrospectionResult) (n : nat),
    flat_map pick (emitted (generateServer options entry) now n)
    = perServer entry.

Hypothesis pick_text : forall line, pick (StText line) = [].
Hypothesis pick_import : forall d, pick (StImport d) = [].





End Names.








(** ** introspection.ts: the capability cache *)

Section CacheProperties.

Import Config Introspection.

Variable Result : Type.
Variable errorOf : Result -> option string.

Lemma cacheGet_cacheSet_same (key : string) (value : Result)
    (cache : Cache Result) :
  cacheGet Result key (cacheSet Result key value cache) = Some value.
Proof.
  induction cache as [ | [k v] rest IH ]; simpl.
  - rewrite String.eqb_refl. reflexivity.
  - destruct (k =? key) eqn:E; simpl; rewrite E; [ reflexivity | exact IH ].
Qed.

Lemma cacheGet_cacheSet_other (key other : string) (value : Result)
    (cache : Cache Result) :
  other <> key ->
  cacheGet Result other (cacheSet Result key value cache)
  = cacheGet Result other cache.
Proof.
  intros Hne. induction cache as [ | [k v] rest IH ]; simpl.
  - destruct (key =? other) eqn:E; [ | reflexivity ].
    apply String.eqb_eq in E. congruence.
  - destruct (k =? key) eqn:E; simpl.
    + apply String.eqb_eq in E. subst k.
      destruct (key =? other) eqn:E'; [ | reflexivity ].
      apply String.eqb_eq in E'. congruence.
    + rewrite IH. reflexivity.
Qed.

Lemma cacheKey_eq (a b : McpServer) : cacheKey a = cacheKey b -> a = b.
Proof.
  destruct a as [ta ua], b as [tb ub]. unfold cacheKey. cbn [server_type server_url].
  destruct ta, tb; simpl; intros H; try discriminate H.
  - injection H as H. subst. reflexivity.
  - injection H as H. subst. reflexivity.
Qed.

(** X18. The cache key tells servers apart: two servers that differ in
    their transport type or in their URL have different keys, so that a
    result is never handed back for another server than the one it was
    stored for. *)
Theorem cacheKey_injective :
  forall a b : McpServer, a <> b -> cacheKey a <> cacheKey b.
Proof.
  intros a b Hne Hkey. apply Hne. apply cacheKey_eq. exact Hkey.
Qed.

(** X19. A result that carries an error is never stored: the cache is left
    as it was, forced refresh or not; so a cache that holds error-free
    results only still does after any call. *)
Theorem failed_result_not_cached :
  forall (cache : Cache Result) (server : McpServer) (forceRefresh : bool)
         (introspectServer : McpServer -> Result),
    (Js.truthy (errorOf (fst (getCachedCapabilities Result errorOf cache server
                                forceRefresh introspectServer))) = true ->
     snd (getCachedCapabilities Result errorOf cache server forceRefresh
            introspectServer)
     = cache)
    /\ (Forall (fun entry => Js.truthy (errorOf (snd entry)) = false) cache ->
        Forall (fun entry => Js.truthy (errorOf (snd entry)) = false)
          (snd (getCachedCapabilities Result errorOf cache server forceRefresh
                  introspectServer))).
Proof.
  intros cache server forceRefresh introspectServer.
  unfold getCachedCapabilities.
  destruct (if forceRefresh then None else cacheGet Result (cacheKey server) cache)
    as [ cached | ].
  - split; intros H; [ reflexivity | exact H ].
  - destruct (Js.truthy (errorOf (introspectServer server))) eqn:He; cbn [fst snd].
    + split; intros H; [ reflexivity | exact H ].
    + split; [ intros H; rewrite He in H; discriminate H | ].
      intros Hall. generalize (cacheKey server). intros key.
      induction cache as [ | [k v] rest IH ]; simpl.
      * constructor; [ exact He | constructor ].
      * inversion Hall as [ | ? ? Hv Hrest ]; subst.
        destruct (k =? key); constructor;
          solve [ exact He | exact Hv | exact Hrest | apply IH; exact Hrest ].
Qed.

(** X20. After a call that returned an error-free result, a call for the
    same server without forced refresh returns that same result and leaves
    the cache as it is, whatever introspecting the server would now give;
    and what the cache holds for any other server is what it held
    before. *)
Theorem cached_result_is_reused :
  forall (cache : Cache Result) (server : McpServer) (forceRefresh : bool)
         (introspectServer : McpServer -> Result),
    let result :=
      fst (getCachedCapabilities Result errorOf cache server forceRefresh
             introspectServer) in
    let cache' :=
      snd (getCachedCapabilities Result errorOf cache server forceRefresh
             introspectServer) in
    Js.truthy (errorOf result) = false ->
    (forall later : McpServer -> Result,
        getCachedCapabilities Result errorOf cache' server false later
        = (result, cache'))
    /\ (forall other : McpServer,
           other <> server ->
           cacheGet Result (cacheKey other) cache'
           = cacheGet Result (cacheKey other) cache).
Proof.
  intros cache server forceRefresh introspectServer. cbv zeta.
  destruct (getCachedCapabilities Result errorOf cache server forceRefresh
              introspectServer) as [result cache'] eqn:Hcall.
  cbn [fst snd]. intros Hok.
  unfold getCachedCapabilities in Hcall.
  destruct (if forceRefresh then None else cacheGet Result (cacheKey server) cache)
    as [ cached | ] eqn:Hget.
  - injection Hcall as <- <-. split; [ | reflexivity ].
    intros later. unfold getCachedCapabilities.
    destruct forceRefresh; [ discriminate Hget | ].
    rewrite Hget. reflexivity.
  - destruct (Js.truthy (errorOf (introspectServer server))) eqn:He;
      injection Hcall as <- <-; [ rewrite He in Hok; discriminate Hok | ].
    split.
    + intros later. unfold getCachedCapabilities.
      rewrite cacheGet_cacheSet_same. reflexivity.
    + intros other Hother. apply cacheGet_cacheSet_other.
      intros Hkey. apply Hother. apply cacheKey_eq. exact Hkey.
Qed.

(** X21. A forced refresh introspects even when a result is stored, and
    replaces the stored result by an error-free new one; after
    [clearCapabilityCache] every call introspects. *)
Theorem refresh_and_clear :
  forall (cache : Cache Result) (server : McpServer)
         (introspectServer : McpServer -> Result),
    fst (getCachedCapabilities Result errorOf cache server true introspectServer)
    = introspectServer server
    /\ fst (getCachedCapabilities Result errorOf
              (clearCapabilityCache Result cache) server false introspectServer)
       = introspectServer server
    /\ (Js.truthy (errorOf (introspectServer server)) = false ->
        cacheGet Result (cacheKey server)
          (snd (getCachedCapabilities Result errorOf cache server true
                  introspectServer))
        = Some (introspectServer server)).
Proof.
  intros cache server introspectServer.
  unfold getCachedCapabilities, clearCapabilityCache. cbn [cacheGet].
  split; [ | split ].
  - destruct (Js.truthy (errorOf (introspectServer server))); reflexivity.
  - destruct (Js.truthy (errorOf (introspectServer server))); reflexivity.
  - intros He. rewrite He. cbn [snd]. apply cacheGet_cacheSet_same.
Qed.

End CacheProperties.

Lemma cacheKey_injective_witness :
  Introspection.cacheKey (Config.mkServer Config.Http "https://example.com/mcp")
  <> Introspection.cacheKey (Config.mkServer Config.Sse "https://example.com/mcp").
Proof.
  apply cacheKey_injective. discriminate.
Defined.

Lemma failed_result_not_cached_witness :
  snd (Introspection.getCachedCapabilities (option string) (fun r => r) []
         (Config.mkServer Config.Http "https://mcp.notion.com/mcp") false
         (fun _ => Some "Connection refused"))
  = [].
Proof.
  apply (proj1 (failed_result_not_cached (option string) (fun r => r) []
                  (Config.mkServer Config.Http "https://mcp.notion.com/mcp") false
                  (fun _ => Some "Connection refused"))).
  reflexivity.
Defined.

Lemma cached_result_is_reused_witness :
  Introspection.getCachedCapabilities (option string) (fun r => r)
    (snd (Introspection.getCachedCapabilities (option string) (fun r => r) []
            (Config.mkServer Config.Http "https://mcp.notion.com/mcp") false (fun _ => None)))
    (Config.mkServer Config.Http "https://mcp.notion.com/mcp") false
    (fun _ => Some "Connection refused")
  = (None,
     snd (Introspection.getCachedCapabilities (option string) (fun r => r) []
            (Config.mkServer Config.Http "https://mcp.notion.com/mcp") false (fun _ => None))).
Proof.
  apply (proj1 (cached_result_is_reused (option string) (fun r => r) []
                  (Config.mkServer Config.Http "https://mcp.notion.com/mcp") false
                  (fun _ => None) eq_refl)).
Defined.

Lemma refresh_and_clear_witness :
  Introspection.cacheGet (option string) (Introspection.cacheKey (Config.mkServer Config.Sse "https://example.com/sse"))
    (snd (Introspection.getCachedCapabilities (option string) (fun r => r)
            [("sse:https://example.com/sse", Some "stale")]
            (Config.mkServer Config.Sse "https://example.com/sse") true (fun _ => None)))
  = Some None.
Proof.
  apply (proj2 (proj2 (refresh_and_clear (option string) (fun r => r)
                         [("sse:https://example.com/sse", Some "stale")]
                         (Config.mkServer Config.Sse "https://example.com/sse")
                         (fun _ => None)))).
  reflexivity.
Defined.

(** ** config.ts: the servers of the config files *)

Section ConfigProperties.

Import Value Config.

Lemma processServerConfig_candidate (hasDefault : bool) (found : Found)
    (serverConfig : JsValue) :
  processServerConfig hasDefault found serverConfig
  = match candidate hasDefault serverConfig with
    | Some s =>
      if Js.has (seenUrls found) (server_url s) then found
      else mkFound (servers found +++ [s]) (server_url s :: seenUrls found)
    | None => found
    end.
Proof.
  unfold processServerConfig, candidate.
  destruct (isObject serverConfig); [ | reflexivity ].
  destruct (getProperty serverConfig "url") as [ | | b | z | url | l | l ];
    try reflexivity.
  destruct (nonEmpty (trim url)); [ | reflexivity ].
  cbn [andb].
  destruct (inferType hasDefault serverConfig) as [ serverType | ];
    cbn [option_map server_url].
  - destruct (Js.has (seenUrls found) (trim url)); reflexivity.
  - destruct (Js.has (seenUrls found) (trim url)); reflexivity.
Qed.

Lemma processEntries_firstByUrl (hasDefault : bool) (entries : list JsValue) :
  forall found : Found,
    fold_left (processServerConfig hasDefault) entries found
    = mkFound
        (servers found
         +++ firstByUrl (seenUrls found)
               (flat_map (fun e => optionToList (candidate hasDefault e)) entries))
        (seenAfter (seenUrls found)
           (flat_map (fun e => optionToList (candidate hasDefault e)) entries)).
Proof.
  induction entries as [ | e rest IH ]; intros found.
  - destruct found. simpl. rewrite app_nil_r. reflexivity.
  - cbn [fold_left flat_map]. rewrite IH, processServerConfig_candidate.
    destruct (candidate hasDefault e) as [ s | ]; cbn [optionToList app].
    + cbn [firstByUrl seenAfter].
      destruct (Js.has (seenUrls found) (server_url s)); [ reflexivity | ].
      cbn [servers seenUrls]. rewrite <- app_assoc. reflexivity.
    + reflexivity.
Qed.

Lemma processConfig_entries (found : Found) (config : JsValue) :
  processConfig found config
  = fold_left (processServerConfig (hasDefaultType config)) (configEntries config)
      found.
Proof.
  unfold processConfig, configEntries, hasDefaultType.
  destruct config; try reflexivity;
    match goal with
    | |- context [ if ?c then _ else _ ] => destruct c; reflexivity
    end.
Qed.

Lemma firstByUrl_app (l1 l2 : list McpServer) :
  forall seen : list string,
    firstByUrl seen (l1 +++ l2)
    = firstByUrl seen l1 +++ firstByUrl (seenAfter seen l1) l2.
Proof.
  induction l1 as [ | s l1 IH ]; intros seen; [ reflexivity | ].
  cbn [app firstByUrl seenAfter].
  destruct (Js.has seen (server_url s)); rewrite IH; reflexivity.
Qed.

Lemma seenAfter_app (l1 l2 : list McpServer) :
  forall seen : list string,
    seenAfter seen (l1 +++ l2) = seenAfter (seenAfter seen l1) l2.
Proof.
  induction l1 as [ | s l1 IH ]; intros seen; [ reflexivity | ].
  cbn [app seenAfter].
  destruct (Js.has seen (server_url s)); rewrite IH; reflexivity.
Qed.

(** The loop of [getMcpServers] over the files. *)
Lemma processFiles_firstByUrl (readConfig : string -> option JsValue)
    (paths : list string) :
  forall found : Found,
    fold_left
      (fun found path =>
         match readConfig path with
         | Some config => processConfig found config
         | None => found
         end)
      paths found
    = mkFound
        (servers found +++ firstByUrl (seenUrls found) (candidates readConfig paths))
        (seenAfter (seenUrls found) (candidates readConfig paths)).
Proof.
  induction paths as [ | path rest IH ]; intros found.
  - destruct found. simpl. rewrite app_nil_r. reflexivity.
  - cbn [fold_left]. rewrite IH. unfold candidates. cbn [flat_map].
    destruct (readConfig path) as [ config | ].
    + rewrite processConfig_entries, processEntries_firstByUrl.
      cbn [servers seenUrls].
      rewrite firstByUrl_app, seenAfter_app, <- app_assoc. reflexivity.
    + reflexivity.
Qed.

Lemma getMcpServers_firstByUrl (readConfig : string -> option JsValue)
    (paths : list string) :
  getMcpServers readConfig paths = firstByUrl [] (candidates readConfig paths).
Proof.
  unfold getMcpServers. rewrite processFiles_firstByUrl. reflexivity.
Qed.

End ConfigProperties.

Section ConfigTheorems.

Import Value Config.

Lemma trimStart_shape (str : string) :
  trimStart str = EmptyString
  \/ exists c rest, trimStart str = String c rest /\ Js.isWhitespace c = false.
Proof.
  induction str as [ | c rest IH ]; [ left; reflexivity | ].
  simpl. destruct (Js.isWhitespace c) eqn:Hc; [ exact IH | ].
  right. exists c, rest. split; [ reflexivity | exact Hc ].
Qed.

Lemma trimEnd_head (c : ascii) (rest : string) :
  Js.isWhitespace c = false ->
  exists kept, trimEnd (String c rest) = String c kept.
Proof.
  intros Hc. simpl. destruct (trimEnd rest) as [ | d kept ].
  - rewrite Hc. exists EmptyString. reflexivity.
  - exists (String d kept). reflexivity.
Qed.

Lemma trimEnd_idempotent (str : string) : trimEnd (trimEnd str) = trimEnd str.
Proof.
  induction str as [ | c rest IH ]; [ reflexivity | ].
  simpl. destruct (trimEnd rest) as [ | d kept ] eqn:Hrest.
  - destruct (Js.isWhitespace c) eqn:Hc; [ reflexivity | ].
    simpl. rewrite Hc. reflexivity.
  - simpl in IH |- *. rewrite IH. reflexivity.
Qed.

Lemma trim_idempotent (str : string) : trim (trim str) = trim str.
Proof.
  unfold trim.
  destruct (trimStart_shape str) as [ H | [c [rest [H Hc]]] ]; rewrite H.
  - reflexivity.
  - destruct (trimEnd_head c rest Hc) as [kept Hkept]. rewrite Hkept.
    cbn [trimStart]. rewrite Hc. rewrite <- Hkept. apply trimEnd_idempotent.
Qed.

Lemma firstByUrl_incl (l : list McpServer) :
  forall (seen : list string) (s : McpServer),
    In s (firstByUrl seen l) -> In s l /\ ~ In (server_url s) seen.
Proof.
  induction l as [ | x l IH ]; intros seen s H; [ contradiction | ].
  cbn [firstByUrl] in H.
  destruct (Js.has seen (server_url x)) eqn:Hx.
  - destruct (IH seen s H) as [Hin Hns]. split; [ right; exact Hin | exact Hns ].
  - destruct H as [ <- | H ].
    + split; [ left; reflexivity | apply has_false_iff; exact Hx ].
    + destruct (IH _ s H) as [Hin Hns]. split; [ right; exact Hin | ].
      intros Hs. apply Hns. right. exact Hs.
Qed.

Lemma firstByUrl_NoDup (l : list McpServer) :
  forall seen : list string, NoDup (map server_url (firstByUrl seen l)).
Proof.
  induction l as [ | x l IH ]; intros seen; [ constructor | ].
  cbn [firstByUrl]. destruct (Js.has seen (server_url x)); [ apply IH | ].
  cbn [map]. constructor; [ | apply IH ].
  intros Hin. apply in_map_iff in Hin. destruct Hin as [s [Hurl Hs]].
  destruct (firstByUrl_incl l _ s Hs) as [_ Hns].
  apply Hns. left. symmetry. exact Hurl.
Qed.

Lemma seenAfter_spec (l : list McpServer) :
  forall (seen : list string) (u : string),
    In u (seenAfter seen l)
    <-> In u seen \/ In u (map server_url (firstByUrl seen l)).
Proof.
  induction l as [ | x l IH ]; intros seen u.
  - simpl. tauto.
  - cbn [seenAfter firstByUrl].
    destruct (Js.has seen (server_url x)); [ apply IH | ].
    rewrite IH. cbn [map In]. tauto.
Qed.

Lemma seenAfter_covers (l : list McpServer) :
  forall (seen : list string) (s : McpServer),
    In s l -> In (server_url s) (seenAfter seen l).
Proof.
  induction l as [ | x l IH ]; intros seen s Hin; [ contradiction | ].
  cbn [seenAfter]. destruct Hin as [ <- | Hin ].
  - destruct (Js.has seen (server_url x)) eqn:Hx.
    + apply seenAfter_spec. left. apply has_true_iff. exact Hx.
    + apply seenAfter_spec. left. left. reflexivity.
  - destruct (Js.has seen (server_url x)); apply IH; exact Hin.
Qed.

Lemma firstByUrl_all_seen (l : list McpServer) (seen : list string) :
  (forall s, In s l -> In (server_url s) seen) -> firstByUrl seen l = [].
Proof.
  induction l as [ | x l IH ]; intros H; [ reflexivity | ].
  cbn [firstByUrl].
  rewrite (proj2 (has_true_iff seen (server_url x)) (H x (or_introl eq_refl))).
  apply IH. intros s Hs. apply H. right. exact Hs.
Qed.

Lemma candidates_app (readConfig : string -> option JsValue)
    (a b : list string) :
  candidates readConfig (a +++ b)
  = candidates readConfig a +++ candidates readConfig b.
Proof.
  unfold candidates. apply flat_map_app.
Qed.

Lemma candidate_url (hasDefault : bool) (serverConfig : JsValue) (s : McpServer) :
  candidate hasDefault serverConfig = Some s ->
  server_url s <> EmptyString /\ trim (server_url s) = server_url s.
Proof.
  unfold candidate. destruct (isObject serverConfig); [ | discriminate ].
  destruct (getProperty serverConfig "url") as [ | | b | z | url | l | l ];
    try discriminate.
  destruct (nonEmpty (trim url)) eqn:Hne; [ | discriminate ].
  destruct (inferType hasDefault serverConfig) as [ t | ]; [ | discriminate ].
  cbn [option_map]. intros H. injection H as <-. cbn [server_url].
  split.
  - intros Hempty. rewrite Hempty in Hne. discriminate Hne.
  - apply trim_idempotent.
Qed.

Lemma candidates_url (readConfig : string -> option JsValue)
    (paths : list string) (s : McpServer) :
  In s (candidates readConfig paths) ->
  server_url s <> EmptyString /\ trim (server_url s) = server_url s.
Proof.
  unfold candidates. intros H. apply in_flat_map in H.
  destruct H as [path [_ H]].
  destruct (readConfig path) as [ config | ]; [ | contradiction ].
  apply in_flat_map in H. destruct H as [e [_ H]].
  destruct (candidate (hasDefaultType config) e) as [ c | ] eqn:Hc;
    [ | contradiction ].
  destruct H as [ <- | [] ]. apply (candidate_url _ _ _ Hc).
Qed.

(** X22. No two servers returned have the same URL, and every URL returned
    is non-empty and trimmed. *)
Theorem server_urls_unique_and_trimmed :
  forall (readConfig : string -> option JsValue) (paths : list string),
    NoDup (map server_url (getMcpServers readConfig paths))
    /\ Forall (fun s => server_url s <> EmptyString
                        /\ trim (server_url s) = server_url s)
         (getMcpServers readConfig paths).
Proof.
  intros readConfig paths. rewrite getMcpServers_firstByUrl. split.
  - apply firstByUrl_NoDup.
  - apply Forall_forall. intros s Hs.
    apply (candidates_url readConfig paths).
    apply (firstByUrl_incl _ _ _ Hs).
Qed.

Lemma server_urls_unique_and_trimmed_witness :
  let entry (url : string) := JsObject [("url", JsString url)] in
  let readConfig (path : string) :=
    Some (JsObject
            [("mcpServers",
              JsObject [("a", entry "  https://example.com/mcp ");
                        ("b", entry "https://example.com/mcp");
                        ("c", entry "   ")])]) in
  getMcpServers readConfig ["mcp.json"] = [mkServer Http "https://example.com/mcp"]
  /\ NoDup (map server_url (getMcpServers readConfig ["mcp.json"]))
  /\ Forall (fun s => server_url s <> EmptyString
                      /\ trim (server_url s) = server_url s)
        (getMcpServers readConfig ["mcp.json"]).
Proof.
  cbv zeta. split; [ reflexivity | ].
  apply (server_urls_unique_and_trimmed
           (fun path =>
              Some (JsObject
                      [("mcpServers",
                        JsObject
                          [("a", JsObject [("url", JsString "  https://example.com/mcp ")]);
                           ("b", JsObject [("url", JsString "https://example.com/mcp")]);
                           ("c", JsObject [("url", JsString "   ")])])]))
           ["mcp.json"]).
Defined.

(** X23. Files read later never change what files read earlier gave: the
    servers of a longer list of paths are those of the shorter list,
    followed by servers with other URLs. *)
Theorem earlier_files_have_priority :
  forall (readConfig : string -> option JsValue) (paths later : list string),
    exists more : list McpServer,
      getMcpServers readConfig (paths +++ later)
      = getMcpServers readConfig paths +++ more
      /\ forall s, In s more ->
           ~ In (server_url s) (map server_url (getMcpServers readConfig paths)).
Proof.
  intros readConfig paths later.
  exists (firstByUrl (seenAfter [] (candidates readConfig paths))
            (candidates readConfig later)).
  rewrite !getMcpServers_firstByUrl, candidates_app, firstByUrl_app.
  split; [ reflexivity | ].
  intros s Hs Hin.
  destruct (firstByUrl_incl _ _ _ Hs) as [_ Hns].
  apply Hns. apply seenAfter_spec. right. exact Hin.
Qed.

Lemma earlier_files_have_priority_witness :
  let entry (type : string) :=
    JsObject [("url", JsString "https://example.com/mcp"); ("type", JsString type)] in
  let readConfig (path : string) :=
    Some (JsObject
            [("mcpServers",
              JsObject [("api", entry (if path =? "first.json" then "sse" else "http"))])]) in
  getMcpServers readConfig (["first.json"] +++ ["second.json"])
  = [mkServer Sse "https://example.com/mcp"]
  /\ exists more : list McpServer,
       getMcpServers readConfig (["first.json"] +++ ["second.json"])
       = getMcpServers readConfig ["first.json"] +++ more
       /\ forall s, In s more ->
            ~ In (server_url s) (map server_url (getMcpServers readConfig ["first.json"])).
Proof.
  cbv zeta. split; [ reflexivity | ].
  apply (earlier_files_have_priority
           (fun path =>
              Some (JsObject
                      [("mcpServers",
                        JsObject
                          [("api",
                            JsObject
                              [("url", JsString "https://example.com/mcp");
                               ("type",
                                JsString (if path =? "first.json" then "sse" else "http"))])])]))
           ["first.json"] ["second.json"]).
Defined.

(** X24. Reading again files that were read changes nothing: when every
    path of [again] is among [paths], the servers of [paths] followed by
    [again] are those of [paths]. *)
Theorem rereading_changes_nothing :
  forall (readConfig : string -> option JsValue) (paths again : list string),
    (forall path, In path again -> In path paths) ->
    getMcpServers readConfig (paths +++ again) = getMcpServers readConfig paths.
Proof.
  intros readConfig paths again Hsub.
  rewrite !getMcpServers_firstByUrl, candidates_app, firstByUrl_app.
  rewrite (firstByUrl_all_seen (candidates readConfig again)
             (seenAfter [] (candidates readConfig paths)));
    [ apply app_nil_r | ].
  intros s Hs. apply seenAfter_covers.
  unfold candidates in Hs |- *. apply in_flat_map in Hs.
  destruct Hs as [path [Hpath Hs]].
  apply in_flat_map. exists path. split; [ apply Hsub; exact Hpath | exact Hs ].
Qed.

Lemma rereading_changes_nothing_witness :
  let readConfig (path : string) :=
    Some (JsObject
            [("mcpServers",
              JsObject [("notion",
                         JsObject [("url", JsString " https://mcp.notion.com/mcp ")])])]) in
  getMcpServers readConfig [".mcp.local.json"; ".mcp.json"; ".mcp.local.json"]
  = getMcpServers readConfig [".mcp.local.json"; ".mcp.json"]
  /\ getMcpServers readConfig [".mcp.local.json"; ".mcp.json"]
     = [mkServer Http "https://mcp.notion.com/mcp"].
Proof.
  cbv zeta. split; [ | reflexivity ].
  apply (rereading_changes_nothing _ [".mcp.local.json"; ".mcp.json"]
           [".mcp.local.json"]).
  intros path [ <- | [] ]. left. reflexivity.
Defined.

(** X25. A file that cannot be read or parsed, a file that holds [null],
    and a file that has neither [mcpServers] nor [servers] are skipped: the
    servers are those of the other files. *)
Theorem unusable_files_are_skipped :
  forall (readConfig : string -> option JsValue) (before after : list string)
         (path : string),
    (readConfig path = None
     \/ readConfig path = Some JsNull
     \/ exists config,
          readConfig path = Some config
          /\ truthy (getProperty config "mcpServers") = false
          /\ truthy (getProperty config "servers") = false) ->
    getMcpServers readConfig (before +++ path :: after)
    = getMcpServers readConfig (before +++ after).
Proof.
  intros readConfig before after path H.
  rewrite !getMcpServers_firstByUrl, !candidates_app.
  assert (Hnone : candidates readConfig (path :: after) = candidates readConfig after).
  { unfold candidates. cbn [flat_map].
    destruct H as [ H | [ H | [config [H [Hm Hs]]] ] ]; rewrite H; try reflexivity.
    unfold configEntries, Dynamic.orValue. rewrite Hm, Hs.
    cbn [andb]. destruct config; reflexivity. }
  rewrite Hnone. reflexivity.
Qed.

Lemma unusable_files_are_skipped_witness :
  let readConfig (path : string) :=
    if path =? ".mcp.json"
    then Some (JsObject
                 [("servers",
                   JsObject [("api", JsObject [("url", JsString "https://example.com/mcp");
                                               ("type", JsString "sse")])])])
    else None in
  getMcpServers readConfig [".mcp.local.json"; ".mcp.json"]
  = getMcpServers readConfig [".mcp.json"]
  /\ getMcpServers readConfig [".mcp.json"] = [mkServer Sse "https://example.com/mcp"].
Proof.
  cbv zeta. split; [ | reflexivity ].
  apply (unusable_files_are_skipped _ [] [".mcp.json"] ".mcp.local.json").
  left. reflexivity.
Defined.

(** X26. Nothing is invented and nothing but duplicates is dropped: every
    server returned is a candidate of one of the files, and the URL of
    every candidate is the URL of a server returned. *)
Theorem servers_are_the_candidates :
  forall (readConfig : string -> option JsValue) (paths : list string),
    (forall s, In s (getMcpServers readConfig paths) ->
               In s (candidates readConfig paths))
    /\ (forall s, In s (candidates readConfig paths) ->
                  In (server_url s)
                     (map server_url (getMcpServers readConfig paths))).
Proof.
  intros readConfig paths. rewrite getMcpServers_firstByUrl. split.
  - intros s Hs. apply (firstByUrl_incl _ _ _ Hs).
  - intros s Hs.
    pose proof (seenAfter_covers (candidates readConfig paths) [] s Hs) as H.
    apply seenAfter_spec in H. destruct H as [ [] | H ]. exact H.
Qed.

Lemma servers_are_the_candidates_witness :
  let readConfig (path : string) :=
    Some (JsObject
            [("mcpServers",
              JsObject [("local", JsObject [("command", JsString "npx")]);
                        ("api", JsObject [("url", JsString "https://example.com/mcp")])])]) in
  In (mkServer Http "https://example.com/mcp") (candidates readConfig [".mcp.json"]).
Proof.
  cbv zeta.
  apply (proj1 (servers_are_the_candidates _ [".mcp.json"])).
  left. reflexivity.
Defined.

(** X27. An entry is skipped, and stands for no server, when its [type] is
    [stdio], when it has a [command] and its [type] is not [http] or [sse],
    and when its [type] is any other non-empty string. *)
Theorem unsupported_entries_are_skipped :
  forall (hasDefault : bool) (serverConfig : JsValue),
    Dynamic.isString (getProperty serverConfig "type") "http" = false ->
    Dynamic.isString (getProperty serverConfig "type") "sse" = false ->
    (Dynamic.isString (getProperty serverConfig "type") "stdio" = true
     \/ truthy (getProperty serverConfig "command") = true
     \/ truthy (getProperty serverConfig "type") = true) ->
    candidate hasDefault serverConfig = None
    /\ forall found, processServerConfig hasDefault found serverConfig = found.
Proof.
  intros hasDefault serverConfig Hhttp Hsse H.
  assert (Hcand : candidate hasDefault serverConfig = None).
  { unfold candidate. destruct (isObject serverConfig); [ | reflexivity ].
    destruct (getProperty serverConfig "url"); try reflexivity.
    destruct (nonEmpty (trim s)); [ | reflexivity ].
    unfold inferType. rewrite Hhttp, Hsse.
    destruct H as [ H | [ H | H ] ]; rewrite H; cbn [orb negb option_map];
      try reflexivity.
    - rewrite orb_true_r. reflexivity.
    - destruct (Dynamic.isString (getProperty serverConfig "type") "stdio"
                || truthy (getProperty serverConfig "command")); reflexivity. }
  split; [ exact Hcand | ].
  intros found. rewrite processServerConfig_candidate, Hcand. reflexivity.
Qed.

Lemma unsupported_entries_are_skipped_witness :
  candidate true
    (JsObject [("type", JsString "stdio"); ("url", JsString "https://example.com/mcp")])
  = None.
Proof.
  apply (proj1 (unsupported_entries_are_skipped true
                  (JsObject [("type", JsString "stdio");
                             ("url", JsString "https://example.com/mcp")])
                  eq_refl eq_refl (or_introl eq_refl))).
Defined.

Lemma configEntries_hasDefaultType (config e : JsValue) :
  In e (configEntries config) -> hasDefaultType config = true.
Proof.
  intros H. unfold hasDefaultType.
  destruct (truthy (getProperty config "mcpServers")) eqn:Hm;
    [ apply orb_true_r | ].
  destruct (truthy (getProperty config "servers")) eqn:Hs; [ reflexivity | ].
  exfalso. unfold configEntries, Dynamic.orValue in H.
  rewrite Hm in H. cbv iota in H. rewrite Hs in H. cbn [andb] in H.
  destruct config; contradiction.
Qed.

(** X28. An entry of a config with a URL that is not blank, no [type] and no
    [command] always stands for an [http] server with the trimmed URL: the
    inner test of the format never fails for an entry the loop reaches. *)
Theorem missing_type_defaults_to_http :
  forall (config serverConfig : JsValue) (url : string),
    In serverConfig (configEntries config) ->
    isObject serverConfig = true ->
    getProperty serverConfig "url" = JsString url ->
    trim url <> EmptyString ->
    truthy (getProperty serverConfig "type") = false ->
    truthy (getProperty serverConfig "command") = false ->
    candidate (hasDefaultType config) serverConfig = Some (mkServer Http (trim url)).
Proof.
  intros config serverConfig url Hin Hobj Hurl Hne Hty Hcmd.
  unfold candidate. rewrite Hobj, Hurl.
  destruct (trim url) as [ | c rest ] eqn:Htrim; [ contradiction | ].
  cbn [nonEmpty]. unfold inferType.
  rewrite (configEntries_hasDefaultType config serverConfig Hin), Hcmd, Hty.
  destruct (getProperty serverConfig "type") as [ | | b | z | s | l | l ];
    try discriminate Hty; try reflexivity.
  destruct s; [ reflexivity | discriminate Hty ].
Qed.

Lemma missing_type_defaults_to_http_witness :
  let entry := JsObject [("url", JsString "  https://mcp.notion.com/mcp")] in
  candidate (hasDefaultType (JsObject [("servers", JsObject [("notion", entry)])])) entry
  = Some (mkServer Http "https://mcp.notion.com/mcp").
Proof.
  cbv zeta.
  apply (missing_type_defaults_to_http
           (JsObject [("servers",
                       JsObject [("notion",
                                  JsObject [("url", JsString "  https://mcp.notion.com/mcp")])])])
           (JsObject [("url", JsString "  https://mcp.notion.com/mcp")])
           "  https://mcp.notion.com/mcp");
    solve [ reflexivity | discriminate | left; reflexivity ].
Defined.

End ConfigTheorems.

(** ** file-builder.ts: the message of a failed operation *)

(** X29. On a result in error state, the tool helper throws an error whose
    message names the operation and carries the [text] of the first content
    item, converted to a string, when that item is an object with a [text];
    in every other case (no content, a first item that is no object or has
    no [text]) the message carries [Tool execution failed]. *)
Theorem error_message_of_failed_operation :
  forall (result : Runtime.CallToolResult) (toolName : string),
    Runtime.signalsError result ->
    Runtime.handleToolResult result toolName
    = Runtime.Thrown
        ("Tool '" ++ toolName ++ "' error: "
           ++ match errorText result with
              | Some text => Value.toString text
              | None => "Tool execution failed"
              end).
Proof.
  intros [flag items] toolName H.
  unfold Runtime.signalsError in H. cbn [Runtime.isError] in H.
  unfold Runtime.handleToolResult, errorText.
  cbn [Runtime.isError Runtime.content]. rewrite H.
  destruct (Value.optionalFirst items) as [ | | b | z | s | l | entries ];
    cbn [Value.truthy Value.typeofObject Value.hasProperty Value.getProperty andb];
    try reflexivity.
  - destruct b; reflexivity.
  - destruct (negb (Z.eqb z 0)); reflexivity.
  - destruct s; reflexivity.
  - destruct (Value.lookup "text" entries); reflexivity.
Qed.

Lemma error_message_of_failed_operation_witness :
  Runtime.handleToolResult
    (Runtime.mkCallToolResult (Value.JsBoolean true)
       (Value.JsArray
          [Value.JsObject [("type", Value.JsString "text");
                           ("text", Value.JsString "page not found")]]))
    "fetch"
  = Runtime.Thrown "Tool 'fetch' error: page not found".
Proof.
  apply (error_message_of_failed_operation
           (Runtime.mkCallToolResult (Value.JsBoolean true)
              (Value.JsArray
                 [Value.JsObject [("type", Value.JsString "text");
                                  ("text", Value.JsString "page not found")]]))
           "fetch").
  reflexivity.
Defined.

(** ** config.ts: local files first *)

(** X30. When [.mcp.local.json] exists, what it defines is kept as it is by
    the other config files found: the servers of the files found are those
    of [.mcp.local.json] alone, followed by servers with other URLs. *)
Theorem local_config_is_not_overridden :
  forall (resolve : string -> string -> string) (existsSync : string -> bool)
         (cwd : string) (readConfig : string -> option Value.JsValue),
    existsSync (resolve cwd ".mcp.local.json") = true ->
    exists more : list Config.McpServer,
      Config.getMcpServers readConfig (findMcpConfigFiles resolve existsSync cwd)
      = Config.getMcpServers readConfig [resolve cwd ".mcp.local.json"] +++ more
      /\ forall s, In s more ->
           ~ In (Config.server_url s)
                (map Config.server_url
                   (Config.getMcpServers readConfig [resolve cwd ".mcp.local.json"])).
Proof.
  intros resolve existsSync cwd readConfig Hlocal.
  unfold findMcpConfigFiles, MCP_CONFIG_PATHS. cbn [flat_map].
  rewrite Hlocal.
  exists (firstByUrl
            (seenAfter [] (candidates readConfig [resolve cwd ".mcp.local.json"]))
            (candidates readConfig
               (flat_map (fun configPath =>
                            if existsSync (resolve cwd configPath)
                            then [resolve cwd configPath] else [])
                  [".mcp.json"; ".cursor/mcp.local.json"; ".cursor/mcp.json";
                   ".vscode/mcp.local.json"; ".vscode/mcp.json"]))).
  split.
  - rewrite !getMcpServers_firstByUrl.
    change (candidates readConfig ([resolve cwd ".mcp.local.json"] +++ ?rest))
      with (candidates readConfig ([resolve cwd ".mcp.local.json"] +++ rest)).
    rewrite <- firstByUrl_app, <- candidates_app. reflexivity.
  - intros s Hs Hin. rewrite getMcpServers_firstByUrl in Hin.
    destruct (firstByUrl_incl _ _ _ Hs) as [_ Hns].
    apply Hns. apply seenAfter_spec. right. exact Hin.
Qed.

Lemma local_config_is_not_overridden_witness :
  let resolve (cwd path : string) := cwd ++ "/" ++ path in
  let existsSync (path : string) :=
    (path =? "/app/.mcp.local.json") || (path =? "/app/.mcp.json") in
  let readConfig (path : string) :=
    Some (Value.JsObject
            [("mcpServers",
              Value.JsObject
                [("api",
                  Value.JsObject
                    [("url", Value.JsString "https://example.com/mcp");
                     ("type", Value.JsString
                                (if path =? "/app/.mcp.local.json" then "sse" else "http"))])])]) in
  findMcpConfigFiles resolve existsSync "/app" = ["/app/.mcp.local.json"; "/app/.mcp.json"]
  /\ Config.getMcpServers readConfig (findMcpConfigFiles resolve existsSync "/app")
     = [Config.mkServer Config.Sse "https://example.com/mcp"]
  /\ exists more : list Config.McpServer,
       Config.getMcpServers readConfig (findMcpConfigFiles resolve existsSync "/app")
       = Config.getMcpServers readConfig ["/app/.mcp.local.json"] +++ more.
Proof.
  cbv zeta. split; [ reflexivity | split; [ reflexivity | ] ].
  destruct (local_config_is_not_overridden
              (fun cwd path => cwd ++ "/" ++ path)
              (fun path => (path =? "/app/.mcp.local.json") || (path =? "/app/.mcp.json"))
              "/app"
              (fun path =>
                 Some (Value.JsObject
                         [("mcpServers",
                           Value.JsObject
                             [("api",
                               Value.JsObject
                                 [("url", Value.JsString "https://example.com/mcp");
                                  ("type",
                                   Value.JsString
                                     (if path =? "/app/.mcp.local.json"
                                      then "sse" else "http"))])])]))
              eq_refl) as [more [H _]].
  exists more. exact H.
Defined.
